(** * PYRAMDS: the PIXIE list-mode parser front end, [pyramds.py]

    A shallow embedding of the table descriptions [GammaEvent], [AggEvent1],
    [AggEvent2] and of the class [PyramdsParser] (its derived path
    properties, [get_file_series] and [get_bin_info]), followed by the
    properties of the specification that concern them.

    Conventions.  A Python 2 [str] is a [string] of 8-bit characters; a
    Python [int] is a [Z].  The methods of [PyramdsParser] run in a small
    state-and-exception monad over a [World] that holds the receiver, the
    module-level name [parser] and the store of list objects.  The file
    system is only ever read, so it is an argument.  Library functions whose
    behaviour no property depends on ([datetime.strptime], [fnmatch.fnmatch])
    are section variables. *)

From Stdlib Require Import ZArith Ascii String DecimalString.
From stdpp Require Import base option list strings.

Local Open Scope Z_scope.

(** ** Python strings *)

Module Py.

Definition LF : ascii := "010"%char.
Definition CR : ascii := "013"%char.

Definition chars (s : string) : list ascii := list_ascii_of_string s.
Definition of_chars (l : list ascii) : string := string_of_list_ascii l.

Definition len (s : string) : Z := Z.of_nat (String.length s).

(** [s[i]] for a character position counted from the start. *)
Definition char_at (s : string) (i : nat) : option ascii := chars s !! i.

(** Bound adjustment of a slice with step 1: a negative bound counts from
    the end, and both bounds are clamped to [0 .. len]. *)
Definition adjust (n : Z) (bound : option Z) (default : Z) : Z :=
  match bound with
  | None => default
  | Some b => if b <? 0 then Z.max (b + n) 0 else Z.min b n
  end.

(** [s[start:stop]]. *)
Definition slice (s : string) (start stop : option Z) : string :=
  let n := len s in
  let lo := adjust n start 0 in
  let hi := adjust n stop n in
  of_chars (take (Z.to_nat (hi - lo)) (drop (Z.to_nat lo) (chars s))).

(** [str.isspace] on one 8-bit character in the C locale:
    space, and the controls \t \n \v \f \r. *)
Definition isspace (c : ascii) : bool :=
  let n := nat_of_ascii c in
  ((n =? 32) || ((9 <=? n) && (n <=? 13)))%nat.

(** [s.split()]: the maximal runs of non-whitespace characters, in order. *)
Fixpoint split_from (s : string) (cur : string) : list string :=
  match s with
  | EmptyString => if String.eqb cur "" then [] else [cur]
  | String c s' =>
      if isspace c
      then (if String.eqb cur "" then split_from s' ""
            else cur :: split_from s' "")
      else split_from s' (cur +:+ String c "")
  end.

Definition split (s : string) : list string := split_from s "".

(** Universal-newline translation of mode ['rU']: "\r\n" and a lone "\r"
    both read as "\n". *)
Fixpoint universal_newlines (s : string) : string :=
  match s with
  | EmptyString => EmptyString
  | String c s' =>
      if Ascii.eqb c CR
      then String LF
             match s' with
             | String c' s'' =>
                 if Ascii.eqb c' LF then universal_newlines s''
                 else universal_newlines s'
             | EmptyString => EmptyString
             end
      else String c (universal_newlines s')
  end.

(** Lines of an already translated text, each with its terminating "\n";
    a last line without terminator is kept when it is not empty. *)
Fixpoint lines_from (s : string) (cur : string) : list string :=
  match s with
  | EmptyString => if String.eqb cur "" then [] else [cur]
  | String c s' =>
      if Ascii.eqb c LF
      then (cur +:+ String LF "") :: lines_from s' ""
      else lines_from s' (cur +:+ String c "")
  end.

(** [f.readlines()] on a file opened with mode ['rU']. *)
Definition readlines (content : string) : list string :=
  lines_from (universal_newlines content) "".

Definition digit_value (c : ascii) : option Z :=
  let n := nat_of_ascii c in
  if ((48 <=? n) && (n <=? 57))%nat then Some (Z.of_nat n - 48) else None.

Fixpoint digits_value (s : string) (acc : Z) : option Z :=
  match s with
  | EmptyString => Some acc
  | String c s' =>
      match digit_value c with
      | Some d => digits_value s' (10 * acc + d)
      | None => None
      end
  end.

Definition unsigned_value (s : string) : option Z :=
  match s with
  | EmptyString => None
  | _ => digits_value s 0
  end.

(** [int(s)] in base 10 on a token without whitespace: an optional sign and a
    non-empty run of decimal digits; [None] stands for [ValueError]. *)
Definition int (s : string) : option Z :=
  match s with
  | String "+" s' => unsigned_value s'
  | String "-" s' => Z.opp <$> unsigned_value s'
  | _ => unsigned_value s
  end.

(** [str(n)] for an [int]. *)
Definition str (n : Z) : string := NilZero.string_of_int (Z.to_int n).

Fixpoint repeat_char (c : ascii) (n : nat) : string :=
  match n with
  | O => EmptyString
  | S n' => String c (repeat_char c n')
  end.

(** [format(n, "0>4")]: [str(n)] right-aligned in a field of width 4 that is
    filled with the character 0; longer text is left as it is. *)
Definition format_0gt4 (n : Z) : string :=
  let s := str n in
  repeat_char "0" (4 - String.length s) +:+ s.

(** [posixpath.dirname]. *)
Definition rfind_slash (s : string) : Z :=
  let fix go (l : list ascii) (i : Z) (last : Z) : Z :=
    match l with
    | [] => last
    | c :: l' => go l' (i + 1) (if Ascii.eqb c "/" then i else last)
    end in
  go (chars s) 0 (-1).

Fixpoint rstrip_slash_rev (l : list ascii) : list ascii :=
  match l with
  | c :: l' => if Ascii.eqb c "/" then rstrip_slash_rev l' else l
  | [] => []
  end.

Definition rstrip_slash (s : string) : string :=
  of_chars (rev (rstrip_slash_rev (rev (chars s)))).

Definition dirname (p : string) : string :=
  let i := rfind_slash p + 1 in
  let head := slice p None (Some i) in
  if negb (String.eqb head "")
     && negb (String.eqb head (repeat_char "/" (String.length head)))
  then rstrip_slash head
  else head.

(** [posixpath.join] of two components. *)
Definition join (a b : string) : string :=
  match b with
  | String "/" _ => b
  | _ =>
      if String.eqb a "" then b
      else if String.eqb (slice a (Some (-1)) None) "/" then a +:+ b
      else a +:+ "/" +:+ b
  end.

End Py.

(** ** Table descriptions *)

(** A column descriptor of PyTables with its [pos] argument. *)
Inductive Col : Type :=
  | Int32Col (pos : nat)
  | Float32Col (pos : nat).

Inductive dtype : Type := int32 | float32.

Definition col_pos (c : Col) : nat :=
  match c with Int32Col p | Float32Col p => p end.

Definition col_dtype (c : Col) : dtype :=
  match c with Int32Col _ => int32 | Float32Col _ => float32 end.

(** The body of an [IsDescription] class: its attributes. *)
Definition IsDescription : Type := list (string * Col).

Definition GammaEvent : IsDescription :=
  [ ("energy_0", Int32Col 0);
    ("energy_1", Int32Col 1);
    ("energy_2", Int32Col 2);
    ("deltaT_01", Float32Col 3);
    ("deltaT_02", Float32Col 4);
    ("deltaT_12", Float32Col 5);
    ("timestamp", Float32Col 6) ].

Definition AggEvent1 : IsDescription :=
  [ ("energy", Int32Col 0);
    ("timestamp", Float32Col 1) ].

Definition AggEvent2 : IsDescription :=
  [ ("energy_1", Int32Col 0);
    ("energy_2", Int32Col 1);
    ("timestamp", Float32Col 2) ].

(** The table built from a description places its columns by increasing
    [pos]; the attributes of a class body carry no order of their own. *)
Fixpoint place (a : string * Col) (d : IsDescription) : IsDescription :=
  match d with
  | [] => [a]
  | b :: d' =>
      if (col_pos a.2 <=? col_pos b.2)%nat then a :: d else b :: place a d'
  end.

Definition by_pos (d : IsDescription) : IsDescription := foldr place [] d.

Definition columns (d : IsDescription) : list (string * dtype) :=
  (λ a, (a.1, col_dtype a.2)) <$> by_pos d.

(** ** Objects and the world *)

Record datetime : Type := Datetime {
  year : Z; month : Z; day : Z; hour : Z; minute : Z; second : Z
}.

(** The dictionary stored in [self.times], keys 'start', 'total', 'live'. *)
Record Times : Type := MkTimes {
  start : datetime;
  total : string;
  live : list string
}.

(** A reference to a list object of the store. *)
Definition ref : Type := nat.

Record PyramdsParser : Type := MkParser {
  selected_data_file : string;
  file_series : ref;
  file_counter : Z;
  buffer_no : Z;
  times : option Times;
  bufheadlen : option Z;
  eventheadlen : option Z;
  chanheadlen : option Z
}.

(** What the module-level name [parser] denotes when a method of some
    instance runs: nothing (the module was imported, the name was never
    assigned), the receiver itself, or another instance. *)
Inductive global_name : Type :=
  | Unbound
  | BoundToSelf
  | BoundTo (other : PyramdsParser).

Record World : Type := MkWorld {
  self : PyramdsParser;
  parser : global_name;
  store : list (list string)
}.

Inductive exn : Type :=
  | IOError | OSError | IndexError | ValueError | NameError | ReError.

Definition exn_name (e : exn) : string :=
  match e with
  | IOError => "IOError"
  | OSError => "OSError"
  | IndexError => "IndexError"
  | ValueError => "ValueError"
  | NameError => "NameError"
  | ReError => "error"
  end.

Inductive outcome (A : Type) : Type :=
  | Returned (a : A)
  | Raised (e : exn).
Arguments Returned {A} a.
Arguments Raised {A} e.

(** The file system as the parser sees it; it is never written. *)
Record FileSystem : Type := MkFS {
  fs_open : string → option string;
  fs_listdir : string → option (list string)
}.

(** ** The method monad *)

Definition M (A : Type) : Type := World → World * outcome A.

#[global] Instance M_ret : MRet M := λ A a w, (w, Returned a).

#[global] Instance M_bind : MBind M := λ A B f m w,
  match m w with
  | (w', Returned a) => f a w'
  | (w', Raised e) => (w', Raised e)
  end.

Definition raise {A} (e : exn) : M A := λ w, (w, Raised e).

Definition or_raise {A} (e : exn) (o : option A) : M A :=
  match o with Some a => mret a | None => raise e end.

Definition get_self : M PyramdsParser := λ w, (w, Returned (self w)).

Definition modify_self (f : PyramdsParser → PyramdsParser) : M unit :=
  λ w, (MkWorld (f (self w)) (parser w) (store w), Returned tt).

(** The instance a use of the global name [parser] evaluates to. *)
Definition global_parser : M PyramdsParser := λ w,
  match parser w with
  | Unbound => (w, Raised NameError)
  | BoundToSelf => (w, Returned (self w))
  | BoundTo p => (w, Returned p)
  end.

(** A new list object. *)
Definition new_list (l : list string) : M ref := λ w,
  (MkWorld (self w) (parser w) (store w ++ [l]), Returned (length (store w))).

(** [r.append(x)]. *)
Definition list_append (r : ref) (x : string) : M unit := λ w,
  (MkWorld (self w) (parser w) (alter (λ l, l ++ [x]) r (store w)), Returned tt).

(** [l[i]] on a list, for an index that is not negative. *)
Definition index {A} (l : list A) (i : nat) : M A := or_raise IndexError (l !! i).

Fixpoint for_each {A} (l : list A) (body : A → M unit) : M unit :=
  match l with
  | [] => mret tt
  | x :: l' => _ ← body x; for_each l' body
  end.

Fixpoint collect {A B} (l : list A) (f : A → M B) : M (list B) :=
  match l with
  | [] => mret []
  | x :: l' => y ← f x; ys ← collect l' f; mret (y :: ys)
  end.

(** Attribute assignments. *)
Definition set_file_series (r : ref) (p : PyramdsParser) : PyramdsParser :=
  MkParser (selected_data_file p) r (file_counter p) (buffer_no p)
           (times p) (bufheadlen p) (eventheadlen p) (chanheadlen p).

Definition set_file_counter (n : Z) (p : PyramdsParser) : PyramdsParser :=
  MkParser (selected_data_file p) (file_series p) n (buffer_no p)
           (times p) (bufheadlen p) (eventheadlen p) (chanheadlen p).

Definition set_times (t : Times) (p : PyramdsParser) : PyramdsParser :=
  MkParser (selected_data_file p) (file_series p) (file_counter p) (buffer_no p)
           (Some t) (bufheadlen p) (eventheadlen p) (chanheadlen p).

Definition set_bufheadlen (n : Z) (p : PyramdsParser) : PyramdsParser :=
  MkParser (selected_data_file p) (file_series p) (file_counter p) (buffer_no p)
           (times p) (Some n) (eventheadlen p) (chanheadlen p).

Definition set_eventheadlen (n : Z) (p : PyramdsParser) : PyramdsParser :=
  MkParser (selected_data_file p) (file_series p) (file_counter p) (buffer_no p)
           (times p) (bufheadlen p) (Some n) (chanheadlen p).

Definition set_chanheadlen (n : Z) (p : PyramdsParser) : PyramdsParser :=
  MkParser (selected_data_file p) (file_series p) (file_counter p) (buffer_no p)
           (times p) (bufheadlen p) (eventheadlen p) (Some n).

(** A parser as its class attributes create it: [File()], [List()],
    [Int(1)], [buffer_no = 0]; its list object is the first of the store. *)
Definition new_parser : PyramdsParser :=
  MkParser "" 0%nat 1 0 None None None None.

(** ** PyramdsParser *)

Section Parser.

(** [datetime.strptime(text, format)]; [None] stands for [ValueError]. *)
Variable strptime : string → string → option datetime.

(** [fnmatch.fnmatch(name, pattern)]; [None] stands for the [re.error] of a
    pattern whose bracket expression does not compile. *)
Variable fnmatch : string → string → option bool.

Variable fs : FileSystem.

(** Property [series_basename]. *)
Definition _get_series_basename (p : PyramdsParser) : string :=
  Py.slice (selected_data_file p) None (Some (-8)).

Definition series_basename : M string :=
  p ← get_self; mret (_get_series_basename p).

(** Property [active_file_path]. *)
Definition _get_active_file_path (p : PyramdsParser) : string :=
  _get_series_basename p +:+ Py.format_0gt4 (file_counter p).

Definition active_file_path : M string :=
  p ← get_self; mret (_get_active_file_path p).

(** Property [data_cwd]: the getter reads [parser.series_basename], the
    module-level name, not the receiver. *)
Definition _get_data_cwd : M string :=
  p ← global_parser; mret (Py.dirname (_get_series_basename p)).

Definition data_cwd : M string := _get_data_cwd.

Definition get_file_series (ext : string) : M ref :=
  r ← new_list [];
  _ ← modify_self (set_file_series r);
  base ← series_basename;
  let file_wildcard := base +:+ "*." +:+ ext in
  cwd ← data_cwd;
  names ← or_raise OSError (fs_listdir fs cwd);
  _ ← for_each names (λ file,
        cwd ← data_cwd;
        hit ← or_raise ReError (fnmatch (Py.join cwd file) file_wildcard);
        if hit : bool
        then p ← get_self; list_append (file_series p) file
        else mret tt);
  p ← get_self;
  mret (file_series p).

Definition date_format : string := "%I:%M:%S %p %a, %b %d, %Y".

Definition get_bin_info : M unit :=
  path ← active_file_path;
  let active_file_ifm := path +:+ ".ifm" in
  content ← or_raise IOError (fs_open fs active_file_ifm);
  let info_str_list := Py.readlines content in
  line ← index info_str_list 1;
  let date_str := Py.slice line (Some 23) (Some (-2)) in
  run_start_time ← or_raise ValueError (strptime date_str date_format);
  line ← index info_str_list 6;
  total_time ← index (Py.split line) 3;
  live_time ← collect (seq 0 4) (λ channel,
                 line ← index info_str_list (9 + channel)%nat;
                 index (Py.split line) 2);
  _ ← modify_self (set_times (MkTimes run_start_time total_time live_time));
  line ← index info_str_list 33;
  tok ← index (Py.split line) 1;
  n ← or_raise ValueError (Py.int tok);
  _ ← modify_self (set_bufheadlen n);
  line ← index info_str_list 34;
  tok ← index (Py.split line) 1;
  n ← or_raise ValueError (Py.int tok);
  _ ← modify_self (set_eventheadlen n);
  modify_self (set_chanheadlen 2).

End Parser.

(** ** The documented positions of an info file *)

(** Token [k] of line [ln], both counted from 0. *)
Definition token (lines : list string) (ln k : nat) : option string :=
  line ← lines !! ln; Py.split line !! k.

(** The date text: line 1 from character 23 up to, and without, its
    second-to-last character. *)
Definition date_text (lines : list string) : option string :=
  (λ line, Py.slice line (Some 23) (Some (-2))) <$> lines !! 1%nat.

Definition has {A} (o : option A) : bool :=
  match o with Some _ => true | None => false end.

(** An info file is well formed when every documented position is present
    and the date and the two header lengths parse. *)
Definition well_formed (strptime : string → string → option datetime)
    (lines : list string) : bool :=
  has (date_text lines ≫= λ s, strptime s date_format)
  && has (token lines 6 3)
  && forallb (λ channel, has (token lines (9 + channel) 2)) (seq 0 4)
  && has (token lines 33 1 ≫= Py.int)
  && has (token lines 34 1 ≫= Py.int).

(** What two info files have to share to agree on the documented positions. *)
Definition documented (lines : list string) :
    option string * option string * list (option string)
    * option string * option string :=
  (date_text lines, token lines 6 3,
   (λ channel, token lines (9 + channel) 2) <$> seq 0 4,
   token lines 33 1, token lines 34 1).

(** The metadata attributes of a parser. *)
Definition metadata (p : PyramdsParser) :
    option Times * option Z * option Z * option Z :=
  (times p, bufheadlen p, eventheadlen p, chanheadlen p).

(** The receiver once [get_bin_info] has stored all of its results. *)
Definition with_metadata (t : Times) (b e : Z) (p : PyramdsParser) : PyramdsParser :=
  set_chanheadlen 2 (set_eventheadlen e (set_bufheadlen b (set_times t p))).

(** The info file of the receiver. *)
Definition ifm_path (w : World) : string :=
  _get_active_file_path (self w) +:+ ".ifm".

(** An outcome that is the exception of the given class name. *)
Definition raises_named {A} (name : string) (r : World * outcome A) : Prop :=
  ∃ e, r.2 = Raised e ∧ exn_name e = name.

(** [get_file_series] called [n] more times after a first call whose result
    is [r]: the reference returned last. *)
Fixpoint again (call : M ref) (n : nat) (r : ref) : M ref :=
  match n with
  | O => mret r
  | S n' => r' ← call; again call n' r'
  end.

(** The documented layout as one reading of the lines: the start time, the
    total time and the four live times, and the two header lengths. *)
Definition read_fields (strptime : string → string → option datetime)
    (lines : list string) : option (Times * Z * Z) :=
  d ← date_text lines ≫= (λ s, strptime s date_format);
  tot ← token lines 6 3;
  lv ← mapM (λ channel, token lines (9 + channel) 2) (seq 0 4);
  b ← token lines 33 1 ≫= Py.int;
  e ← token lines 34 1 ≫= Py.int;
  Some (MkTimes d tot lv, b, e).

(** The directory [get_file_series] lists, when [parser] is bound. *)
Definition listed_cwd (w : World) : option string :=
  match parser w with
  | Unbound => None
  | BoundToSelf => Some (Py.dirname (_get_series_basename (self w)))
  | BoundTo p => Some (Py.dirname (_get_series_basename p))
  end.

(** The names the loop of [get_file_series] appends, and how the loop ends. *)
Fixpoint scan (fnmatch : string → string → option bool) (cwd wildcard : string)
    (names : list string) : list string * outcome unit :=
  match names with
  | [] => ([], Returned tt)
  | file :: names' =>
      match fnmatch (Py.join cwd file) wildcard with
      | None => ([], Raised ReError)
      | Some true =>
          let '(hits, o) := scan fnmatch cwd wildcard names' in (file :: hits, o)
      | Some false => scan fnmatch cwd wildcard names'
      end
  end.

(** A relation between the world before and after a method holds for the
    method when it holds for every run of it. *)
Definition keeps (R : World → World → Prop) {A} (m : M A) : Prop :=
  ∀ w, R w (m w).1.

(** The part of the world that is not metadata. *)
Definition same_frame (w w' : World) : Prop :=
  selected_data_file (self w') = selected_data_file (self w)
  ∧ file_series (self w') = file_series (self w)
  ∧ file_counter (self w') = file_counter (self w)
  ∧ buffer_no (self w') = buffer_no (self w)
  ∧ parser w' = parser w
  ∧ store w' = store w.

(** The pattern [get_file_series] matches the directory entries against. *)
Definition file_wildcard (ext : string) (w : World) : string :=
  _get_series_basename (self w) +:+ "*." +:+ ext.

(** The loop body of [get_file_series]. *)
Definition match_file (fnmatch : string → string → option bool)
    (wildcard : string) (file : string) : M unit :=
  cwd ← data_cwd;
  hit ← or_raise ReError (fnmatch (Py.join cwd file) wildcard);
  if hit : bool
  then p ← get_self; list_append (file_series p) file
  else mret tt.

(** The ten decimal digits, and the check that a four-digit text is the
    padded form of the number it denotes. *)
Definition digit_chars : list ascii :=
  ["0"; "1"; "2"; "3"; "4"; "5"; "6"; "7"; "8"; "9"]%char.

Definition round_trips (a b c d : ascii) : bool :=
  let s := String a (String b (String c (String d ""))) in
  match Py.unsigned_value s with
  | Some n => String.eqb (Py.format_0gt4 n) s
  | None => false
  end.

(** The outcome of [get_file_series] from how its loop ended. *)
Definition returned_ref (r : ref) (o : outcome unit) : outcome ref :=
  match o with Returned _ => Returned r | Raised e => Raised e end.

(** A directory entry that the pattern selects. *)
Definition selected (fnmatch : string → string → option bool)
    (cwd wildcard file : string) : Prop :=
  fnmatch (Py.join cwd file) wildcard = Some true.

#[global] Instance selected_dec fnmatch cwd wildcard file :
  Decision (selected fnmatch cwd wildcard file) :=
  decide (fnmatch (Py.join cwd file) wildcard = Some true).

(** ** Sample instances

    One function of each library type and two small runs, on which the
    statements below are evaluated. *)

Module Sample.

Definition field (text : string) (i j : Z) : string :=
  Py.slice text (Some i) (Some j).

Definition month_of (s : string) : option Z :=
  list_find (String.eqb s)
    ["Jan"; "Feb"; "Mar"; "Apr"; "May"; "Jun";
     "Jul"; "Aug"; "Sep"; "Oct"; "Nov"; "Dec"]
  ≫= λ hit, Some (Z.of_nat hit.1 + 1).

Definition weekday_of (s : string) : option Z :=
  list_find (String.eqb s) ["Mon"; "Tue"; "Wed"; "Thu"; "Fri"; "Sat"; "Sun"]
  ≫= λ hit, Some (Z.of_nat hit.1).

Definition hour24 (I : Z) (p : string) : option Z :=
  if String.eqb p "AM" then Some (I mod 12)
  else if String.eqb p "PM" then Some (I mod 12 + 12)
  else None.

(** [strptime] on zero-padded text of the C locale in the one format the
    parser uses, e.g. "02:35:22 PM Tue, Mar 23, 2010". *)
Definition strptime (text fmt : string) : option datetime :=
  if negb (String.eqb fmt "%I:%M:%S %p %a, %b %d, %Y") then None
  else if negb (Py.len text =? 29) then None
  else if negb (String.eqb (field text 2 3) ":" && String.eqb (field text 5 6) ":"
                && String.eqb (field text 8 9) " " && String.eqb (field text 11 12) " "
                && String.eqb (field text 15 17) ", " && String.eqb (field text 20 21) " "
                && String.eqb (field text 23 25) ", ") then None
  else
    I ← Py.unsigned_value (field text 0 2);
    mi ← Py.unsigned_value (field text 3 5);
    s ← Py.unsigned_value (field text 6 8);
    h ← hour24 I (field text 9 11);
    _ ← weekday_of (field text 12 15);
    mo ← month_of (field text 17 20);
    d ← Py.unsigned_value (field text 21 23);
    y ← Py.unsigned_value (field text 25 29);
    if (1 <=? I) && (I <=? 12) && (mi <=? 59) && (s <=? 59)
       && (1 <=? d) && (d <=? 31) && (1 <=? y)
    then Some (Datetime y mo d h mi s) else None.

(** [fnmatch] on patterns made of literal characters, [*] and [?]. *)
Fixpoint glob (pat : list ascii) : list ascii → bool :=
  match pat with
  | [] => λ s, match s with [] => true | _ => false end
  | c :: pat' =>
      if Ascii.eqb c "*" then
        fix star (s : list ascii) : bool :=
          glob pat' s || match s with [] => false | _ :: s' => star s' end
      else λ s,
        match s with
        | [] => false
        | d :: s' => (Ascii.eqb c "?" || Ascii.eqb c d) && glob pat' s'
        end
  end.

Definition fnmatch (name pat : string) : option bool :=
  Some (glob (Py.chars pat) (Py.chars name)).

Definition text_of (eol : string) (lines : list string) : string :=
  foldr (λ line rest, line +:+ eol +:+ rest) "" lines.

Definition ifm_lines : list string :=
  [ "XIA Pixie list mode run";
    "Acquisition started at 02:35:22 PM Tue, Mar 23, 2010.";
    "stopped at 02:40:25 PM Tue, Mar 23, 2010.";
    "";
    "Number of modules: 1";
    "Module Run_Time Events Total_Time";
    "0 301.532 48213 302.514";
    "";
    "Module Channel Live_Time Input_Count_Rate";
    "0 0 299.871 159.7";
    "0 1 298.113 161.2";
    "0 2 300.004 158.9";
    "0 3 301.532 0.0" ]
  ++ replicate 20 "--"
  ++ [ "BUFFER_HEAD_LENGTH 6";
       "EVENT_HEAD_LENGTH 3";
       "CHANNEL_HEAD_LENGTH 9" ].

Definition ifm : string := text_of (String Py.LF "") ifm_lines.

(** A second info file with the same documented positions and different
    text everywhere else, written with CR LF line ends. *)
Definition ifm_lines' : list string :=
  [ "another header";
    "RUN STARTED ON (local) 02:35:22 PM Tue, Mar 23, 2010;";
    "";
    "";
    "modules 4 crates 2";
    "";
    "7   12.5 1 302.514      trailing words";
    "x";
    "y";
    " 3 1 299.871";
    " 3 2 298.113 0 0 0";
    " 3 3 300.004";
    " 3 4 301.532 1" ]
  ++ replicate 20 "#"
  ++ [ "bufheadlen 6 words";
       "eventheadlen 3 words";
       "chanheadlen 2";
       "more";
       "lines" ].

Definition ifm' : string := text_of (String Py.CR (String Py.LF "")) ifm_lines'.

(** A file whose duration tokens are no numbers at all. *)
Definition ifm_odd_lines : list string :=
  <[6%nat := "0 301.532 48213 soon"]>
    (<[10%nat := "0 1 never 161.2"]> ifm_lines).

Definition ifm_odd : string := text_of (String Py.LF "") ifm_odd_lines.

(** The first 35 lines of [ifm] alone: line 35 is absent. *)
Definition ifm_short : string := text_of (String Py.LF "") (take 35 ifm_lines).

Definition fs_with (content : string) : FileSystem :=
  MkFS (λ path, if String.eqb path "/data/run0001.ifm" then Some content else None)
       (λ dir,
          if String.eqb dir "/data"
          then Some ["run0001.bin"; "notes.txt"; "run0001.ifm"; "run0002.bin";
                     "other0001.bin"]
          else if String.eqb dir "/old"
          then Some ["run0001.bin"; "run0002.bin"; "run0003.bin"]
          else None).

Definition fs : FileSystem := fs_with ifm.

(** No file at all. *)
Definition fs_empty : FileSystem := MkFS (λ _, None) (λ _, None).

Definition select (path : string) (p : PyramdsParser) : PyramdsParser :=
  MkParser path (file_series p) (file_counter p) (buffer_no p)
           (times p) (bufheadlen p) (eventheadlen p) (chanheadlen p).

(** The program run as a script: [parser] is the one instance, and the
    user selected a data file. *)
Definition script : World :=
  MkWorld (select "/data/run0001.bin" new_parser) BoundToSelf [[]].

(** A second instance, while [parser] names a first one that looks at
    another directory. *)
Definition second : World :=
  MkWorld (select "/data/run0001.bin" new_parser)
          (BoundTo (select "/old/run0002.bin" new_parser)) [[]; []].

(** The module imported: [parser] was never assigned. *)
Definition imported : World :=
  MkWorld (select "/data/run0001.bin" new_parser) Unbound [[]].

End Sample.


(** ** The view *)

(** [self.selected_data_file = path]. *)
Definition set_selected_data_file (path : string) (p : PyramdsParser) : PyramdsParser :=
  MkParser path (file_series p) (file_counter p) (buffer_no p)
           (times p) (bufheadlen p) (eventheadlen p) (chanheadlen p).

(** A [PyramdsView]: its file names and the reference of its own
    [file_series] list.  Its [Parser] is the receiver of the [World]. *)
Record PyramdsView : Type := MkView {
  bin_filename : string;
  hdf_filename : string;
  view_file_series : ref
}.

(** [l = r[:]], the elements of a list object; a reference that the store
    does not hold has no elements. *)
Definition list_items (r : ref) : M (list string) := λ w,
  (w, Returned (default [] (store w !! r))).

(** The handler of a change of [bin_filename], run on the view and the
    world of its [Parser].  Assigning to the [List] trait [file_series] of
    the view stores a list object of its own with the items assigned. *)
Definition _bin_filename_changed (fnmatch : string → string → option bool)
    (fs : FileSystem) (new : string) (v : PyramdsView) : M PyramdsView :=
  _ ← modify_self (set_selected_data_file new);
  r ← get_file_series fnmatch fs "bin";
  items ← list_items r;
  own ← new_list items;
  let v' := MkView (bin_filename v) (hdf_filename v) own in
  r' ← get_file_series fnmatch fs "ifm";
  items' ← list_items r';
  _ ← for_each items' (λ ifm, mret tt);
  mret v'.

(** ** Texts and their line ends *)

(** The lines of a text file, each followed by the line end [eol]. *)
Definition text_of (eol : string) (lines : list string) : string :=
  foldr (λ line rest, line +:+ eol +:+ rest) "" lines.

(** A line without any line-end character in it. *)
Definition plain (line : string) : bool :=
  forallb (λ c, negb (Ascii.eqb c Py.CR) && negb (Ascii.eqb c Py.LF)) (Py.chars line).

(** The three line ends that mode ['rU'] accepts. *)
Definition line_ends : list string :=
  [String Py.LF ""; String Py.CR ""; String Py.CR (String Py.LF "")].

(** The decimal digit of a value from 0 to 9, and the four digits of a
    counter from 0 to 9999. *)
Definition digit_char (k : Z) : ascii := ascii_of_nat (48 + Z.to_nat k).

Definition four_digits (n : Z) : string :=
  String (digit_char (n / 1000))
    (String (digit_char (n / 100 mod 10))
       (String (digit_char (n / 10 mod 10))
          (String (digit_char (n mod 10)) ""))).

(** The times alone, as the documented layout gives them. *)
Definition read_times (strptime : string → string → option datetime)
    (lines : list string) : option Times :=
  d ← date_text lines ≫= (λ s, strptime s date_format);
  tot ← token lines 6 3;
  lv ← mapM (λ channel, token lines (9 + channel) 2) (seq 0 4);
  Some (MkTimes d tot lv).


(** * Properties *)

(** ** Sample runs *)

Example slice_example :
  Py.slice "0123456789abcdefghijklmnopqrstuvwxyz" (Some 23) (Some (-2)) = "nopqrstuvwx".
Proof. reflexivity. Qed.

Example format_example :
  Py.format_0gt4 7 = "0007" ∧ Py.format_0gt4 9999 = "9999"
  ∧ Py.format_0gt4 12345 = "12345" ∧ Py.format_0gt4 (-5) = "00-5".
Proof. repeat split; reflexivity. Qed.

Example dirname_example :
  Py.dirname "/a/b/run" = "/a/b" ∧ Py.dirname "run" = ""
  ∧ Py.dirname "/run" = "/" ∧ Py.dirname "a//b" = "a".
Proof. repeat split; reflexivity. Qed.

Example int_example :
  Py.int "0012" = Some 12 ∧ Py.int "-3" = Some (-3) ∧ Py.int "" = None
  ∧ Py.int "+" = None ∧ Py.int "1a" = None.
Proof. repeat split; reflexivity. Qed.

Example readlines_example :
  Py.readlines ("a" +:+ String Py.CR (String Py.LF "b c" +:+ String Py.CR "d"))
  = ["a" +:+ String Py.LF ""; "b c" +:+ String Py.LF ""; "d"]
  ∧ Py.split "  b   c " = ["b"; "c"].
Proof. split; reflexivity. Qed.

Example sample_run :
  get_bin_info Sample.strptime Sample.fs Sample.script
  = (MkWorld (with_metadata
                (MkTimes (Datetime 2010 3 23 14 35 22) "302.514"
                   ["299.871"; "298.113"; "300.004"; "301.532"]) 6 3
                (self Sample.script)) BoundToSelf [[]], Returned tt).
Proof. vm_compute. reflexivity. Qed.

Example sample_series :
  get_file_series Sample.fnmatch Sample.fs "bin" Sample.script
  = (MkWorld (set_file_series 1%nat (self Sample.script)) BoundToSelf
       [[]; ["run0001.bin"; "run0002.bin"]], Returned 1%nat).
Proof. vm_compute. reflexivity. Qed.

(** The second instance lists the directory of the instance named
    [parser] and matches against its own base name. *)
Example sample_series_second :
  get_file_series Sample.fnmatch Sample.fs "bin" Sample.second
  = (MkWorld (set_file_series 2%nat (self Sample.second)) (parser Sample.second)
       [[]; []; []], Returned 2%nat).
Proof. vm_compute. reflexivity. Qed.
(** ** Strings and slices *)

Lemma chars_length s : length (Py.chars s) = String.length s.
Proof. induction s as [|c s IH]; simpl; [reflexivity | by rewrite IH]. Qed.

Lemma chars_app a b : Py.chars (a +:+ b) = Py.chars a ++ Py.chars b.
Proof. induction a as [|c a IH]; simpl; [reflexivity | by rewrite IH]. Qed.

Lemma chars_of_chars l : Py.chars (Py.of_chars l) = l.
Proof. apply list_ascii_of_string_of_list_ascii. Qed.

Lemma of_chars_chars s : Py.of_chars (Py.chars s) = s.
Proof. apply string_of_list_ascii_of_string. Qed.

Lemma string_app_length a b :
  String.length (a +:+ b) = (String.length a + String.length b)%nat.
Proof. by rewrite <- !chars_length, chars_app, length_app. Qed.

(** [s[:-n]] drops a suffix of [n] characters, for [n] above 0. *)
Lemma slice_drop_suffix base suffix n :
  Z.of_nat (String.length suffix) = n → 0 < n →
  Py.slice (base +:+ suffix) None (Some (- n)) = base.
Proof.
  intros <- Hn. unfold Py.slice, Py.adjust, Py.len.
  rewrite string_app_length, chars_app.
  destruct (Z.ltb_spec (- Z.of_nat (String.length suffix)) 0) as [_|]; [|lia].
  replace (Z.to_nat (_ - 0)) with (length (Py.chars base))
    by (rewrite chars_length; lia).
  rewrite Z2Nat.inj_0, drop_0, take_app_length. apply of_chars_chars.
Qed.

(** The characters of [line[23:-2]]: those at the positions 23, 24, ... of
    the line that lie before its second-to-last character. *)
Lemma slice_date_chars line i :
  Py.char_at (Py.slice line (Some 23) (Some (-2))) i
  = if decide (i + 25 < String.length line)%nat
    then Py.char_at line (23 + i) else None.
Proof.
  unfold Py.char_at, Py.slice, Py.adjust, Py.len.
  rewrite chars_of_chars, <- chars_length.
  set (l := Py.chars line).
  change (-2 <? 0) with true. change (23 <? 0) with false. cbv iota.
  case_decide as Hi.
  - rewrite lookup_take_lt by lia. rewrite lookup_drop. f_equal. lia.
  - destruct (decide (i < Z.to_nat (Z.max (-2 + Z.of_nat (length l)) 0 - Z.min 23 (Z.of_nat (length l)))))%nat.
    + lia.
    + by rewrite lookup_take_ge by lia.
Qed.

(** ** Running [get_bin_info] *)

Ltac unfold_run :=
  cbv [get_bin_info active_file_path index collect seq Nat.add
       mbind M_bind mret M_ret or_raise raise get_self modify_self].

Ltac case_step :=
  match goal with
  | |- context [match ?o with Some _ => _ | None => _ end] => destruct o eqn:?
  end.

Ltac use_lookups :=
  repeat match goal with H : _ = Some _ |- _ => rewrite H; clear H; cbn end.

Ltac split_fields H strptime :=
  repeat match type of H with
  | context [?l !! ?i] => destruct (l !! i) eqn:?; cbn in H; [|discriminate]
  | context [strptime ?a ?b] =>
      destruct (strptime a b) eqn:?; cbn in H; [|discriminate]
  | context [Py.int ?a] => destruct (Py.int a) eqn:?; cbn in H; [|discriminate]
  end.

(** [get_bin_info] returns exactly when the info file is there and reads
    under the documented layout, and then it has stored those fields. *)
Lemma get_bin_info_returned strptime fs w w' :
  get_bin_info strptime fs w = (w', Returned tt) ↔
  ∃ content t b e,
    fs_open fs (ifm_path w) = Some content
    ∧ read_fields strptime (Py.readlines content) = Some (t, b, e)
    ∧ w' = MkWorld (with_metadata t b e (self w)) (parser w) (store w).
Proof.
  unfold ifm_path. split.
  - unfold_run. repeat case_step; try discriminate.
    intros [= <-]. eexists _, _, _, _.
    split; [reflexivity|]. split; [|reflexivity].
    unfold read_fields, date_text, token. cbn. use_lookups. reflexivity.
  - intros (content & t & b & e & Hopen & Hf & ->).
    unfold read_fields, date_text, token in Hf. cbn in Hf.
    unfold_run. rewrite Hopen. split_fields Hf strptime.
    injection Hf as <- <- <-. reflexivity.
Qed.

(** When the file is there and does not read under the layout, the method
    raises, and what it raises is [IndexError] or [ValueError]. *)
Lemma get_bin_info_raised strptime fs w content :
  fs_open fs (ifm_path w) = Some content →
  read_fields strptime (Py.readlines content) = None →
  ∃ w' e, get_bin_info strptime fs w = (w', Raised e)
          ∧ (e = IndexError ∨ e = ValueError).
Proof.
  unfold ifm_path. intros Hopen Hnone.
  unfold_run. rewrite Hopen.
  repeat case_step;
    try (eexists _, _; split; [reflexivity | tauto]).
  exfalso. revert Hnone.
  unfold read_fields, date_text, token. cbn. use_lookups. discriminate.
Qed.

Lemma well_formed_read_fields strptime lines :
  well_formed strptime lines = true ↔ is_Some (read_fields strptime lines).
Proof.
  unfold well_formed, read_fields. cbn.
  destruct (date_text lines ≫= _); cbn; [|split; [discriminate | by intros [? ?]]].
  destruct (token lines 6 3); cbn; [|split; [discriminate | by intros [? ?]]].
  destruct (token lines 9 2); cbn; [|split; [discriminate | by intros [? ?]]].
  destruct (token lines 10 2); cbn; [|split; [discriminate | by intros [? ?]]].
  destruct (token lines 11 2); cbn; [|split; [discriminate | by intros [? ?]]].
  destruct (token lines 12 2); cbn; [|split; [discriminate | by intros [? ?]]].
  destruct (token lines 33 1 ≫= _); cbn; [|split; [discriminate | by intros [? ?]]].
  destruct (token lines 34 1 ≫= _); cbn; [|split; [discriminate | by intros [? ?]]].
  split; eauto.
Qed.

Lemma well_formed_false strptime lines :
  well_formed strptime lines = false ↔ read_fields strptime lines = None.
Proof.
  rewrite <- not_true_iff_false, well_formed_read_fields.
  rewrite <- not_eq_None_Some. destruct (read_fields strptime lines); naive_solver.
Qed.

(** From a parse under the layout back to the single positions. *)
Lemma read_fields_Some strptime lines t b e :
  read_fields strptime lines = Some (t, b, e) →
  (∃ line, lines !! 1%nat = Some line
     ∧ strptime (Py.slice line (Some 23) (Some (-2))) date_format = Some (start t))
  ∧ token lines 6 3 = Some (total t)
  ∧ (∃ l0 l1 l2 l3, live t = [l0; l1; l2; l3]
       ∧ token lines 9 2 = Some l0 ∧ token lines 10 2 = Some l1
       ∧ token lines 11 2 = Some l2 ∧ token lines 12 2 = Some l3)
  ∧ (∃ tok, token lines 33 1 = Some tok ∧ Py.int tok = Some b)
  ∧ (∃ tok, token lines 34 1 = Some tok ∧ Py.int tok = Some e).
Proof.
  unfold read_fields, date_text. cbn. intros H.
  destruct (lines !! 1%nat) as [line|] eqn:H1; [|discriminate]. cbn in H.
  destruct (strptime _ _) as [d|] eqn:Hd; [|discriminate]. cbn in H.
  destruct (token lines 6 3) as [tot|]; [|discriminate]. cbn in H.
  destruct (token lines 9 2) as [l0|]; [|discriminate]. cbn in H.
  destruct (token lines 10 2) as [l1|]; [|discriminate]. cbn in H.
  destruct (token lines 11 2) as [l2|]; [|discriminate]. cbn in H.
  destruct (token lines 12 2) as [l3|]; [|discriminate]. cbn in H.
  destruct (token lines 33 1) as [t33|]; [|discriminate]. cbn in H.
  destruct (Py.int t33) as [b'|] eqn:Hb; [|discriminate]. cbn in H.
  destruct (token lines 34 1) as [t34|]; [|discriminate]. cbn in H.
  destruct (Py.int t34) as [e'|] eqn:He; [|discriminate]. cbn in H.
  injection H as <- <- <-. cbn. repeat split; eauto 10.
Qed.

Lemma well_formed_returns strptime fs w content :
  fs_open fs (ifm_path w) = Some content →
  well_formed strptime (Py.readlines content) = true →
  ∃ t b e,
    read_fields strptime (Py.readlines content) = Some (t, b, e)
    ∧ get_bin_info strptime fs w
      = (MkWorld (with_metadata t b e (self w)) (parser w) (store w), Returned tt).
Proof.
  intros Hopen [[[t b] e] Hf]%well_formed_read_fields.
  exists t, b, e. split; [done|].
  apply get_bin_info_returned. eauto 10.
Qed.

(** C1.  For every well-formed info file [get_bin_info] returns, and it has
    stored: as total time the 4th whitespace token of line 6; as live times
    of the channels 0 to 3 the 3rd token of the lines 9, 10, 11 and 12; as
    buffer header length the integer that the 2nd token of line 33 denotes;
    as event header length the integer that the 2nd token of line 34
    denotes.  Lines and tokens are counted from 0 in [token]. *)
Theorem get_bin_info_positions strptime fs w content :
  fs_open fs (ifm_path w) = Some content →
  well_formed strptime (Py.readlines content) = true →
  ∃ w' t b e,
    get_bin_info strptime fs w = (w', Returned tt)
    ∧ times (self w') = Some t
    ∧ bufheadlen (self w') = Some b
    ∧ eventheadlen (self w') = Some e
    ∧ token (Py.readlines content) 6 3 = Some (total t)
    ∧ (∃ l0 l1 l2 l3, live t = [l0; l1; l2; l3]
         ∧ token (Py.readlines content) 9 2 = Some l0
         ∧ token (Py.readlines content) 10 2 = Some l1
         ∧ token (Py.readlines content) 11 2 = Some l2
         ∧ token (Py.readlines content) 12 2 = Some l3)
    ∧ (∃ tok, token (Py.readlines content) 33 1 = Some tok ∧ Py.int tok = Some b)
    ∧ (∃ tok, token (Py.readlines content) 34 1 = Some tok ∧ Py.int tok = Some e).
Proof.
  intros Hopen Hwf.
  destruct (well_formed_returns _ _ _ _ Hopen Hwf) as (t & b & e & Hf & Hrun).
  apply read_fields_Some in Hf as (_ & Htot & Hlive & Hb & He).
  eexists _, t, b, e. split; [exact Hrun|]. cbn. tauto.
Qed.

Lemma get_bin_info_positions_witness :
  ∃ w' t,
    get_bin_info Sample.strptime Sample.fs Sample.script = (w', Returned tt)
    ∧ times (self w') = Some t
    ∧ total t = "302.514"
    ∧ live t = ["299.871"; "298.113"; "300.004"; "301.532"]
    ∧ bufheadlen (self w') = Some 6
    ∧ eventheadlen (self w') = Some 3.
Proof.
  destruct (get_bin_info_positions Sample.strptime Sample.fs Sample.script
              Sample.ifm)
    as (w' & t & b & e & Hrun & Ht & Hb & He & Htot
        & (l0 & l1 & l2 & l3 & Hlive & H0 & H1 & H2 & H3)
        & (t33 & H33 & Hbv) & (t34 & H34 & Hev)); [vm_compute; reflexivity ..|].
  exists w', t. split; [exact Hrun|]. split; [exact Ht|].
  change (Some "302.514" = Some (total t)) in Htot.
  change (Some "299.871" = Some l0) in H0. change (Some "298.113" = Some l1) in H1.
  change (Some "300.004" = Some l2) in H2. change (Some "301.532" = Some l3) in H3.
  change (Some "6" = Some t33) in H33. change (Some "3" = Some t34) in H34.
  injection H33 as <-. injection H34 as <-.
  change (Some 6 = Some b) in Hbv. change (Some 3 = Some e) in Hev.
  repeat split; congruence.
Defined.

(** C3.  For every well-formed info file the run start time is what
    [strptime] reads, in the format '%I:%M:%S %p %a, %b %d, %Y', from the
    text [line[23:-2]] of line 1: the characters of that line from
    position 23 on that lie before its second-to-last character (the stop
    position of the slice, which a slice leaves out). *)
Theorem get_bin_info_start_time strptime fs w content :
  fs_open fs (ifm_path w) = Some content →
  well_formed strptime (Py.readlines content) = true →
  ∃ w' t line date_str,
    get_bin_info strptime fs w = (w', Returned tt)
    ∧ times (self w') = Some t
    ∧ Py.readlines content !! 1%nat = Some line
    ∧ date_str = Py.slice line (Some 23) (Some (-2))
    ∧ (∀ i, Py.char_at date_str i
            = if decide (23 + i < String.length line - 2)%nat
              then Py.char_at line (23 + i) else None)
    ∧ strptime date_str "%I:%M:%S %p %a, %b %d, %Y" = Some (start t).
Proof.
  intros Hopen Hwf.
  destruct (well_formed_returns _ _ _ _ Hopen Hwf) as (t & b & e & Hf & Hrun).
  apply read_fields_Some in Hf as ((line & Hline & Hdate) & _).
  eexists _, t, line, _. split; [exact Hrun|].
  split; [reflexivity|]. split; [exact Hline|]. split; [reflexivity|].
  split; [|exact Hdate].
  intros i. rewrite slice_date_chars. repeat case_decide; (reflexivity || lia).
Qed.

Lemma get_bin_info_start_time_witness :
  ∃ w' t,
    get_bin_info Sample.strptime Sample.fs Sample.script = (w', Returned tt)
    ∧ times (self w') = Some t
    ∧ Sample.strptime "02:35:22 PM Tue, Mar 23, 2010" "%I:%M:%S %p %a, %b %d, %Y"
      = Some (start t).
Proof.
  destruct (get_bin_info_start_time Sample.strptime Sample.fs Sample.script
              Sample.ifm)
    as (w' & t & line & date_str & Hrun & Ht & Hline & -> & _ & Hdate);
    [vm_compute; reflexivity ..|].
  exists w', t. split; [exact Hrun|]. split; [exact Ht|].
  change (Some ("Acquisition started at 02:35:22 PM Tue, Mar 23, 2010." +:+ String Py.LF "") = Some line) in Hline.
  injection Hline as <-. exact Hdate.
Defined.

Lemma read_fields_documented strptime lines1 lines2 :
  documented lines1 = documented lines2 →
  read_fields strptime lines1 = read_fields strptime lines2.
Proof.
  unfold documented. cbn. intros [= Hd Ht H9 H10 H11 H12 H33 H34].
  unfold read_fields. cbn.
  by rewrite Hd, Ht, H9, H10, H11, H12, H33, H34.
Qed.

(** C5.  Two well-formed info files that agree on the documented positions
    (the date text of line 1, token 4 of line 6, token 3 of the lines 9 to
    12, token 2 of the lines 33 and 34) give the same metadata, whatever
    else they contain, and whichever parsers read them. *)
Theorem get_bin_info_noninterference strptime fs1 fs2 w1 w2 content1 content2 :
  fs_open fs1 (ifm_path w1) = Some content1 →
  fs_open fs2 (ifm_path w2) = Some content2 →
  well_formed strptime (Py.readlines content1) = true →
  well_formed strptime (Py.readlines content2) = true →
  documented (Py.readlines content1) = documented (Py.readlines content2) →
  ∃ w1' w2',
    get_bin_info strptime fs1 w1 = (w1', Returned tt)
    ∧ get_bin_info strptime fs2 w2 = (w2', Returned tt)
    ∧ metadata (self w1') = metadata (self w2').
Proof.
  intros Hopen1 Hopen2 Hwf1 Hwf2 Hdoc.
  destruct (well_formed_returns _ _ _ _ Hopen1 Hwf1) as (t1 & b1 & e1 & Hf1 & Hrun1).
  destruct (well_formed_returns _ _ _ _ Hopen2 Hwf2) as (t2 & b2 & e2 & Hf2 & Hrun2).
  rewrite (read_fields_documented _ _ _ Hdoc), Hf2 in Hf1.
  injection Hf1 as <- <- <-.
  eexists _, _. split; [exact Hrun1|]. split; [exact Hrun2|]. reflexivity.
Qed.

Lemma get_bin_info_noninterference_witness :
  Sample.ifm ≠ Sample.ifm'
  ∧ ∃ w1' w2',
      get_bin_info Sample.strptime Sample.fs Sample.script = (w1', Returned tt)
      ∧ get_bin_info Sample.strptime (Sample.fs_with Sample.ifm') Sample.second
        = (w2', Returned tt)
      ∧ metadata (self w1') = metadata (self w2').
Proof.
  split; [discriminate|].
  apply (get_bin_info_noninterference Sample.strptime
           Sample.fs (Sample.fs_with Sample.ifm') Sample.script Sample.second
           Sample.ifm Sample.ifm'); vm_compute; reflexivity.
Defined.

(** Lines that are equal up to line 34 are equal where the method looks. *)
Lemma lookup_below_35 (lines1 lines2 : list string) i :
  take 35 lines1 = take 35 lines2 → (i < 35)%nat → lines1 !! i = lines2 !! i.
Proof.
  intros Heq Hi.
  rewrite <- (lookup_take_lt lines1 35 i), <- (lookup_take_lt lines2 35 i) by done.
  by rewrite Heq.
Qed.

(** C2.  The channel header length is the literal 2 and line 35 is never
    consulted: two info files that are equal up to line 34 give the same
    run, whatever each has on line 35 and after it (or nothing at all
    there), and a run that returns has set [chanheadlen] to 2. *)
Theorem chanheadlen_fixed strptime fs1 fs2 w content1 content2 :
  fs_open fs1 (ifm_path w) = Some content1 →
  fs_open fs2 (ifm_path w) = Some content2 →
  take 35 (Py.readlines content1) = take 35 (Py.readlines content2) →
  get_bin_info strptime fs1 w = get_bin_info strptime fs2 w
  ∧ ∀ w', get_bin_info strptime fs1 w = (w', Returned tt) →
          chanheadlen (self w') = Some 2.
Proof.
  intros Hopen1 Hopen2 Heq. split.
  - pose proof (λ i, lookup_below_35 _ _ i Heq) as Hlk.
    unfold ifm_path in *. unfold_run. rewrite Hopen1, Hopen2.
    rewrite (Hlk 1%nat), (Hlk 6%nat), (Hlk 9%nat), (Hlk 10%nat), (Hlk 11%nat),
      (Hlk 12%nat), (Hlk 33%nat), (Hlk 34%nat) by lia.
    reflexivity.
  - intros w' (? & ? & ? & ? & _ & _ & ->)%get_bin_info_returned. reflexivity.
Qed.

Lemma chanheadlen_fixed_witness :
  token (Py.readlines Sample.ifm) 35 1 = Some "9"
  ∧ Py.readlines Sample.ifm_short !! 35%nat = None
  ∧ get_bin_info Sample.strptime Sample.fs Sample.script
    = get_bin_info Sample.strptime (Sample.fs_with Sample.ifm_short) Sample.script
  ∧ chanheadlen (self (get_bin_info Sample.strptime Sample.fs Sample.script).1)
    = Some 2.
Proof.
  split; [vm_compute; reflexivity|]. split; [vm_compute; reflexivity|].
  destruct (chanheadlen_fixed Sample.strptime Sample.fs
              (Sample.fs_with Sample.ifm_short) Sample.script
              Sample.ifm Sample.ifm_short) as [Hsame H2];
    [vm_compute; reflexivity ..|].
  split; [exact Hsame|].
  apply H2. vm_compute. reflexivity.
Defined.

(** ** Failures of [get_bin_info] *)

(** The method raises built-in exceptions only. *)
Lemma get_bin_info_raises strptime fs w w' e :
  get_bin_info strptime fs w = (w', Raised e) →
  e = IOError ∨ e = IndexError ∨ e = ValueError.
Proof.
  unfold_run. repeat case_step; intros [= _ <-] || discriminate; tauto.
Qed.

(** C4, as the code has it.  A missing info file raises [IOError]; a file
    that is there and lacks a required line or token, or whose date text or
    header lengths do not parse, raises [IndexError] or [ValueError]; every
    other file is read.  The exception reaches the caller; it is never one
    named MetadataFormatError.  The time tokens are stored as text and are
    not parsed, so they cannot make the method fail. *)
Theorem get_bin_info_failures strptime fs w :
  (fs_open fs (ifm_path w) = None →
     get_bin_info strptime fs w = (w, Raised IOError))
  ∧ (∀ content,
       fs_open fs (ifm_path w) = Some content →
       well_formed strptime (Py.readlines content) = false →
       ∃ w' e, get_bin_info strptime fs w = (w', Raised e)
               ∧ (e = IndexError ∨ e = ValueError))
  ∧ (∀ content,
       fs_open fs (ifm_path w) = Some content →
       well_formed strptime (Py.readlines content) = true →
       ∃ w', get_bin_info strptime fs w = (w', Returned tt))
  ∧ ¬ raises_named "MetadataFormatError" (get_bin_info strptime fs w).
Proof.
  split; [|split; [|split]].
  - unfold ifm_path. intros Hopen. unfold_run. by rewrite Hopen.
  - intros content Hopen Hwf%well_formed_false.
    by apply (get_bin_info_raised _ _ _ content).
  - intros content Hopen Hwf.
    destruct (well_formed_returns _ _ _ _ Hopen Hwf) as (t & b & e & _ & Hrun).
    eauto.
  - intros (e & He & Hname).
    destruct (get_bin_info strptime fs w) as [w' o] eqn:Hrun. simpl in He. subst o.
    apply get_bin_info_raises in Hrun as [-> | [-> | ->]]; discriminate.
Qed.

Lemma get_bin_info_failures_witness :
  get_bin_info Sample.strptime Sample.fs_empty Sample.script
    = (Sample.script, Raised IOError)
  ∧ (∃ w' e,
       get_bin_info Sample.strptime (Sample.fs_with "one line") Sample.script
         = (w', Raised e) ∧ (e = IndexError ∨ e = ValueError))
  ∧ ∃ w', get_bin_info Sample.strptime Sample.fs Sample.script = (w', Returned tt).
Proof.
  split; [|split].
  - apply (proj1 (get_bin_info_failures Sample.strptime Sample.fs_empty Sample.script)).
    reflexivity.
  - apply (proj1 (proj2 (get_bin_info_failures Sample.strptime
                           (Sample.fs_with "one line") Sample.script))
             "one line"); vm_compute; reflexivity.
  - apply (proj1 (proj2 (proj2 (get_bin_info_failures Sample.strptime
                                  Sample.fs Sample.script)))
             Sample.ifm); vm_compute; reflexivity.
Defined.

(** C4, as the specification has it, fails.  With no info file the method
    raises [IOError], not an exception named MetadataFormatError; and an info
    file whose time tokens are the words "soon" and "never" is read without
    any failure, the words being stored as they are. *)
Lemma get_bin_info_no_MetadataFormatError :
  (fs_open Sample.fs_empty (ifm_path Sample.script) = None
   ∧ get_bin_info Sample.strptime Sample.fs_empty Sample.script
     = (Sample.script, Raised IOError)
   ∧ exn_name IOError ≠ "MetadataFormatError")
  ∧ (token (Py.readlines Sample.ifm_odd) 6 3 = Some "soon"
     ∧ token (Py.readlines Sample.ifm_odd) 10 2 = Some "never"
     ∧ ∃ w' t,
         get_bin_info Sample.strptime (Sample.fs_with Sample.ifm_odd) Sample.script
           = (w', Returned tt)
         ∧ times (self w') = Some t
         ∧ total t = "soon"
         ∧ live t !! 1%nat = Some "never").
Proof.
  split.
  - split; [reflexivity|]. split; [vm_compute; reflexivity | discriminate].
  - split; [vm_compute; reflexivity|]. split; [vm_compute; reflexivity|].
    eexists _, _. split; [vm_compute; reflexivity|].
    split; [reflexivity|]. split; reflexivity.
Qed.

(** ** The frame of [get_bin_info] *)

Lemma same_frame_refl w : same_frame w w.
Proof. by repeat split. Qed.

Lemma same_frame_trans w1 w2 w3 :
  same_frame w1 w2 → same_frame w2 w3 → same_frame w1 w3.
Proof. unfold same_frame. intros (?&?&?&?&?&?) (?&?&?&?&?&?). repeat split; congruence. Qed.

Lemma keeps_ret {A} (a : A) : keeps same_frame (mret a).
Proof. intros w. apply same_frame_refl. Qed.

Lemma keeps_raise {A} e : keeps same_frame (raise e : M A).
Proof. intros w. apply same_frame_refl. Qed.

Lemma keeps_or_raise {A} e (o : option A) : keeps same_frame (or_raise e o).
Proof. destruct o; [apply keeps_ret | apply keeps_raise]. Qed.

Lemma keeps_index {A} (l : list A) i : keeps same_frame (index l i).
Proof. apply keeps_or_raise. Qed.

Lemma keeps_get_self : keeps same_frame get_self.
Proof. intros w. apply same_frame_refl. Qed.

Lemma keeps_bind {A B} (m : M A) (f : A → M B) :
  keeps same_frame m → (∀ a, keeps same_frame (f a)) →
  keeps same_frame (m ≫= f).
Proof.
  intros Hm Hf w. unfold mbind, M_bind.
  specialize (Hm w). destruct (m w) as [w1 [a|e]]; simpl in *; [|done].
  eapply same_frame_trans; [exact Hm | apply Hf].
Qed.

Lemma keeps_collect {A B} (l : list A) (f : A → M B) :
  (∀ a, keeps same_frame (f a)) → keeps same_frame (collect l f).
Proof.
  intros Hf. induction l as [|x l IH]; simpl; [apply keeps_ret|].
  apply keeps_bind; [apply Hf|]. intros y.
  apply keeps_bind; [apply IH|]. intros ys. apply keeps_ret.
Qed.

Lemma keeps_set_times t : keeps same_frame (modify_self (set_times t)).
Proof. intros w. by repeat split. Qed.

Lemma keeps_set_bufheadlen n : keeps same_frame (modify_self (set_bufheadlen n)).
Proof. intros w. by repeat split. Qed.

Lemma keeps_set_eventheadlen n : keeps same_frame (modify_self (set_eventheadlen n)).
Proof. intros w. by repeat split. Qed.

Lemma keeps_set_chanheadlen n : keeps same_frame (modify_self (set_chanheadlen n)).
Proof. intros w. by repeat split. Qed.

Create HintDb frame.
#[local] Hint Resolve keeps_ret keeps_raise keeps_or_raise keeps_index keeps_get_self
  keeps_set_times keeps_set_bufheadlen keeps_set_eventheadlen keeps_set_chanheadlen
  : frame.

Ltac frame_step :=
  first [ apply keeps_bind; [|intros ?] | apply keeps_collect; intros ? ].

(** C6.  Whatever the info file holds, and whether the method returns or
    raises, [get_bin_info] changes nothing of the parser but its metadata
    attributes: the selected file, the file series (the reference and every
    list object), the file counter and the buffer counter are as before, and
    so is the module-level name [parser].  The file system is an argument
    that the method only reads.  The metadata are delivered by assignment
    to [times], [bufheadlen], [eventheadlen] and [chanheadlen]; the method
    itself returns nothing. *)
Theorem get_bin_info_frame strptime fs w :
  let w' := (get_bin_info strptime fs w).1 in
  selected_data_file (self w') = selected_data_file (self w)
  ∧ file_series (self w') = file_series (self w)
  ∧ file_counter (self w') = file_counter (self w)
  ∧ buffer_no (self w') = buffer_no (self w)
  ∧ parser w' = parser w
  ∧ store w' = store w.
Proof.
  revert w. change (keeps same_frame (get_bin_info strptime fs)).
  unfold get_bin_info, active_file_path.
  repeat frame_step; auto with frame.
Qed.

(** ** Table schemas *)

Lemma place_comm a b d :
  col_pos a.2 ≠ col_pos b.2 → place a (place b d) = place b (place a d).
Proof.
  intros Hne. induction d as [|c d IH]; simpl.
  - destruct (Nat.leb_spec (col_pos a.2) (col_pos b.2)),
             (Nat.leb_spec (col_pos b.2) (col_pos a.2)); (reflexivity || lia).
  - destruct (Nat.leb_spec (col_pos b.2) (col_pos c.2)) as [Hbc|Hbc],
             (Nat.leb_spec (col_pos a.2) (col_pos c.2)) as [Hac|Hac]; simpl;
      repeat match goal with
             | |- context [(?x <=? ?y)%nat] => destruct (Nat.leb_spec x y)
             end; try lia; try reflexivity.
    by rewrite IH.
Qed.

(** The columns of a table do not depend on the order in which the class
    body lists its attributes, as long as no two share a [pos]. *)
Lemma by_pos_perm (d d' : IsDescription) :
  d ≡ₚ d' → NoDup ((λ a, col_pos a.2) <$> d) → by_pos d = by_pos d'.
Proof.
  induction 1 as [|x l l' Hp IH|x y l|l l' l'' Hp1 IH1 Hp2 IH2]; intros Hnd.
  - reflexivity.
  - simpl in *. apply NoDup_cons in Hnd as [_ Hnd]. unfold by_pos in *.
    simpl. by rewrite IH.
  - simpl in *. apply NoDup_cons in Hnd as [Hy _]. unfold by_pos. simpl.
    apply place_comm. intros Heq. apply Hy. rewrite Heq. left.
  - rewrite IH1 by done. apply IH2.
    by rewrite <- Hp1.
Qed.

(** C7.  The three tables have exactly the listed columns, in the listed
    order and of the listed types, in whatever order the attributes of the
    description classes are enumerated: GammaEvent is energy_0, energy_1,
    energy_2 (int32), deltaT_01, deltaT_02, deltaT_12, timestamp (float32) in
    the positions 0 to 6; AggEvent1 is energy (int32), timestamp (float32);
    AggEvent2 is energy_1, energy_2 (int32), timestamp (float32). *)
Theorem table_schemas (g a1 a2 : IsDescription) :
  g ≡ₚ GammaEvent → a1 ≡ₚ AggEvent1 → a2 ≡ₚ AggEvent2 →
  columns g
    = [ ("energy_0", int32); ("energy_1", int32); ("energy_2", int32);
        ("deltaT_01", float32); ("deltaT_02", float32); ("deltaT_12", float32);
        ("timestamp", float32) ]
  ∧ columns a1 = [ ("energy", int32); ("timestamp", float32) ]
  ∧ columns a2 = [ ("energy_1", int32); ("energy_2", int32); ("timestamp", float32) ].
Proof.
  intros Hg H1 H2. unfold columns.
  rewrite <- (by_pos_perm _ _ (Permutation_sym Hg)),
          <- (by_pos_perm _ _ (Permutation_sym H1)),
          <- (by_pos_perm _ _ (Permutation_sym H2));
    [repeat split | | |]; vm_compute; repeat constructor;
    rewrite ?list_elem_of_In; simpl; lia.
Qed.

Lemma table_schemas_witness :
  columns (reverse GammaEvent)
    = [ ("energy_0", int32); ("energy_1", int32); ("energy_2", int32);
        ("deltaT_01", float32); ("deltaT_02", float32); ("deltaT_12", float32);
        ("timestamp", float32) ]
  ∧ columns AggEvent1 = [ ("energy", int32); ("timestamp", float32) ]
  ∧ columns AggEvent2 = [ ("energy_1", int32); ("energy_2", int32); ("timestamp", float32) ].
Proof.
  apply (table_schemas (reverse GammaEvent) AggEvent1 AggEvent2);
    [apply reverse_Permutation | reflexivity | reflexivity].
Defined.

(** ** Derived paths *)

Lemma string_app_assoc a b c : (a +:+ b) +:+ c = a +:+ b +:+ c.
Proof.
  rewrite <- (of_chars_chars ((a +:+ b) +:+ c)), <- (of_chars_chars (a +:+ b +:+ c)).
  by rewrite !chars_app, app_assoc.
Qed.

(** What [data_cwd] evaluates to: the directory of the instance that the
    module-level name [parser] denotes. *)
Lemma data_cwd_run w :
  _get_data_cwd w
  = match listed_cwd w with
    | Some cwd => (w, Returned cwd)
    | None => (w, Raised NameError)
    end.
Proof.
  unfold _get_data_cwd, listed_cwd, global_parser, mbind, M_bind.
  by destruct (parser w).
Qed.

(** C8 at two inputs.  For a second instance, [data_cwd] is the directory of
    the instance named [parser] and not its own; and when the module is
    imported, so that [parser] is not bound, [data_cwd] raises [NameError].
    Only when [parser] is the receiver does [data_cwd] derive from the
    receiver's [series_basename]. *)
Theorem data_cwd_reads_global_parser :
  (_get_data_cwd Sample.second = (Sample.second, Returned "/old")
   ∧ Py.dirname (_get_series_basename (self Sample.second)) = "/data")
  ∧ _get_data_cwd Sample.imported = (Sample.imported, Raised NameError)
  ∧ _get_data_cwd Sample.script = (Sample.script, Returned "/data").
Proof. repeat split; reflexivity. Qed.

Lemma digit_value_range a x : Py.digit_value a = Some x → 0 ≤ x ≤ 9.
Proof.
  unfold Py.digit_value.
  destruct (Nat.leb_spec 48 (nat_of_ascii a)), (Nat.leb_spec (nat_of_ascii a) 57);
    simpl; intros [= <-]; lia.
Qed.

Lemma digit_value_char a x : Py.digit_value a = Some x → In a digit_chars.
Proof.
  destruct a as [[] [] [] [] [] [] [] []]; vm_compute; intros H;
    first [discriminate H | tauto].
Qed.

Lemma all_round_trip :
  forallb (λ a, forallb (λ b, forallb (λ c, forallb (λ d,
    round_trips a b c d) digit_chars) digit_chars) digit_chars) digit_chars
  = true.
Proof. vm_compute. reflexivity. Qed.

(** A text of four digits is the padded form of its value. *)
Lemma four_digits_format digits n :
  String.length digits = 4%nat → Py.unsigned_value digits = Some n →
  Py.format_0gt4 n = digits ∧ 0 ≤ n ≤ 9999.
Proof.
  destruct digits as [|a [|b [|c [|d [|]]]]]; try discriminate. intros _.
  unfold Py.unsigned_value. simpl.
  destruct (Py.digit_value a) as [xa|] eqn:Ha; [|discriminate].
  destruct (Py.digit_value b) as [xb|] eqn:Hb; [|discriminate].
  destruct (Py.digit_value c) as [xc|] eqn:Hc; [|discriminate].
  destruct (Py.digit_value d) as [xd|] eqn:Hd; [|discriminate].
  intros [= <-]. split.
  - pose proof all_round_trip as Hall.
    rewrite forallb_forall in Hall.
    specialize (Hall _ (digit_value_char _ _ Ha)). rewrite forallb_forall in Hall.
    specialize (Hall _ (digit_value_char _ _ Hb)). rewrite forallb_forall in Hall.
    specialize (Hall _ (digit_value_char _ _ Hc)). rewrite forallb_forall in Hall.
    specialize (Hall _ (digit_value_char _ _ Hd)).
    unfold round_trips, Py.unsigned_value in Hall. simpl in Hall.
    rewrite Ha, Hb, Hc, Hd in Hall. by apply String.eqb_eq in Hall.
  - apply digit_value_range in Ha, Hb, Hc, Hd. lia.
Qed.

(** C9.  For a selected path that ends in a four-digit series number and
    '.bin', [series_basename] is the path without those last 8 characters,
    and with [file_counter] set to the number the four digits denote,
    [active_file_path] is the selected path without its '.bin'. *)
Theorem series_path_round_trip p base digits n :
  String.length digits = 4%nat →
  Py.unsigned_value digits = Some n →
  selected_data_file p = base +:+ digits +:+ ".bin" →
  _get_series_basename p = base
  ∧ _get_active_file_path (set_file_counter n p) = base +:+ digits
  ∧ base +:+ digits = Py.slice (selected_data_file p) None (Some (-4))
  ∧ 0 ≤ n ≤ 9999.
Proof.
  intros Hlen Hval Hsel.
  destruct (four_digits_format _ _ Hlen Hval) as [Hfmt Hrange].
  assert (_get_series_basename p = base) as Hbase.
  { unfold _get_series_basename. rewrite Hsel.
    apply (slice_drop_suffix base (digits +:+ ".bin") 8); [|lia].
    rewrite string_app_length, Hlen. reflexivity. }
  split; [exact Hbase|]. split; [|split; [|exact Hrange]].
  - unfold _get_active_file_path. change (_get_series_basename (set_file_counter n p))
      with (_get_series_basename p). simpl file_counter. by rewrite Hbase, Hfmt.
  - rewrite Hsel, <- string_app_assoc. symmetry.
    by apply (slice_drop_suffix (base +:+ digits) ".bin" 4).
Qed.

Lemma series_path_round_trip_witness :
  _get_series_basename (Sample.select "/data/run0012.bin" new_parser) = "/data/run"
  ∧ _get_active_file_path
      (set_file_counter 12 (Sample.select "/data/run0012.bin" new_parser))
    = "/data/run0012".
Proof.
  destruct (series_path_round_trip (Sample.select "/data/run0012.bin" new_parser)
              "/data/run" "0012" 12 eq_refl eq_refl eq_refl) as (H1 & H2 & _).
  split; [exact H1 | exact H2].
Defined.

(** ** The file series *)

Lemma listed_cwd_frame slf slf' g st st' :
  selected_data_file slf' = selected_data_file slf →
  listed_cwd (MkWorld slf' g st') = listed_cwd (MkWorld slf g st).
Proof.
  intros Hsel. unfold listed_cwd, _get_series_basename. simpl.
  destruct g; [reflexivity | by rewrite Hsel | reflexivity].
Qed.

(** The loop appends to the list object of the receiver the names that
    [scan] selects, and ends as [scan] ends. *)
Lemma for_each_scan fnmatch cwd wildcard names :
  ∀ slf g pre acc post,
    listed_cwd (MkWorld slf g (pre ++ acc :: post)) = Some cwd →
    file_series slf = length pre →
    for_each names (match_file fnmatch wildcard) (MkWorld slf g (pre ++ acc :: post))
    = (MkWorld slf g (pre ++ (acc ++ (scan fnmatch cwd wildcard names).1) :: post),
       (scan fnmatch cwd wildcard names).2).
Proof.
  induction names as [|file names IH]; intros slf g pre acc post Hcwd Hr.
  - simpl. by rewrite app_nil_r.
  - simpl for_each. unfold mbind at 1, M_bind at 1.
    unfold match_file at 1, data_cwd.
    unfold mbind at 1, M_bind at 1. rewrite data_cwd_run, Hcwd.
    simpl scan.
    destruct (fnmatch (Py.join cwd file) wildcard) as [[|]|]; simpl.
    + rewrite Hr.
      replace (length pre) with (length pre + 0)%nat by lia.
      rewrite alter_app_r. simpl alter.
      rewrite (IH slf g pre (acc ++ [file]) post).
      * destruct (scan fnmatch cwd wildcard names) as [hits o]. simpl.
        by rewrite <- app_assoc.
      * rewrite <- Hcwd. by apply listed_cwd_frame.
      * exact Hr.
    + apply IH; assumption.
    + by rewrite app_nil_r.
Qed.

(** One call of [get_file_series], run to its end. *)
Lemma get_file_series_run fnmatch fs ext w :
  get_file_series fnmatch fs ext w
  = let r := length (store w) in
    let slf := set_file_series r (self w) in
    match listed_cwd w with
    | None => (MkWorld slf (parser w) (store w ++ [[]]), Raised NameError)
    | Some cwd =>
        match fs_listdir fs cwd with
        | None => (MkWorld slf (parser w) (store w ++ [[]]), Raised OSError)
        | Some names =>
            (MkWorld slf (parser w)
               (store w ++ [(scan fnmatch cwd (file_wildcard ext w) names).1]),
             returned_ref r (scan fnmatch cwd (file_wildcard ext w) names).2)
        end
    end.
Proof.
  unfold get_file_series.
  unfold mbind at 1, M_bind at 1. simpl new_list. cbv beta iota.
  unfold mbind at 1, M_bind at 1. simpl modify_self. cbv beta iota.
  unfold mbind at 1, M_bind at 1. unfold series_basename.
  unfold mbind at 1, M_bind at 1. simpl.
  unfold mbind at 1, M_bind at 1. unfold data_cwd. rewrite data_cwd_run.
  rewrite (listed_cwd_frame (self w) _ (parser w) (store w)) by reflexivity.
  replace (listed_cwd {| self := self w; parser := parser w; store := store w |})
    with (listed_cwd w) by (by destruct w).
  destruct (listed_cwd w) as [cwd|] eqn:Hcwd; [|reflexivity].
  unfold mbind at 1, M_bind at 1.
  destruct (fs_listdir fs cwd) as [names|]; [|reflexivity].
  transitivity
    (let (w', o) :=
       for_each names (match_file fnmatch (file_wildcard ext w))
         (MkWorld (set_file_series (length (store w)) (self w)) (parser w)
                  (store w ++ [[]])) in
     match o with
     | Returned _ => (w', Returned (file_series (self w')))
     | Raised e => (w', Raised e)
     end); [reflexivity|].
  rewrite (for_each_scan fnmatch cwd _ names _ _ (store w) [] []).
  - simpl. by destruct (scan fnmatch cwd (file_wildcard ext w) names) as [hits [[]|e]].
  - rewrite <- Hcwd. destruct w. by apply listed_cwd_frame.
  - reflexivity.
Qed.

(** A loop that ends normally has appended exactly the selected entries,
    each as often as the directory lists it and in the order listed. *)
Lemma scan_returned fnmatch cwd wildcard names :
  (scan fnmatch cwd wildcard names).2 = Returned tt →
  (scan fnmatch cwd wildcard names).1 = filter (selected fnmatch cwd wildcard) names.
Proof.
  induction names as [|file names IH]; [reflexivity|].
  simpl scan. rewrite filter_cons.
  destruct (decide (selected fnmatch cwd wildcard file)) as [Hs|Hs];
    unfold selected in Hs.
  - rewrite Hs. destruct (scan fnmatch cwd wildcard names) as [hits o].
    simpl in *. intros Ho. f_equal. by apply IH.
  - destruct (fnmatch (Py.join cwd file) wildcard) as [[|]|];
      [done | exact IH | discriminate].
Qed.

(** Further calls, from a world in which the receiver's list object holds
    the selected entries, only add list objects, each with those entries. *)
Lemma again_run fnmatch fs ext cwd names hits n :
  ∀ w r,
    listed_cwd w = Some cwd → fs_listdir fs cwd = Some names →
    scan fnmatch cwd (file_wildcard ext w) names = (hits, Returned tt) →
    store w !! r = Some hits → file_series (self w) = r →
    ∃ wn rn k,
      again (get_file_series fnmatch fs ext) n r w = (wn, Returned rn)
      ∧ store wn = store w ++ k
      ∧ store wn !! rn = Some hits
      ∧ file_series (self wn) = rn.
Proof.
  induction n as [|n IH]; intros w r Hcwd Hls Hscan Hr Hfs.
  - exists w, r, []. by rewrite app_nil_r.
  - simpl again. unfold mbind, M_bind.
    rewrite get_file_series_run, Hcwd, Hls, Hscan. simpl.
    destruct (IH (MkWorld (set_file_series (length (store w)) (self w)) (parser w)
                    (store w ++ [hits])) (length (store w)))
      as (wn & rn & k & Hrun & Hst & Hrn & Hfn).
    + rewrite <- Hcwd. destruct w. by apply listed_cwd_frame.
    + exact Hls.
    + exact Hscan.
    + simpl. by apply list_lookup_middle.
    + reflexivity.
    + exists wn, rn, ([hits] ++ k). simpl in Hst.
      split; [exact Hrun|]. split; [by rewrite Hst, <- app_assoc|]. by split.
Qed.

(** C10.  When a call of [get_file_series] returns, the list it returns
    holds exactly the directory entries that match the pattern, and any
    number of further calls (same selected file, extension and directory
    listing) return again a list with the same entries: each call starts
    from a new empty list, so nothing accumulates, and the list returned
    first is left as it was. *)
Theorem get_file_series_idempotent fnmatch fs ext w w1 r1 n :
  get_file_series fnmatch fs ext w = (w1, Returned r1) →
  ∃ wn rn cwd names,
    again (get_file_series fnmatch fs ext) n r1 w1 = (wn, Returned rn)
    ∧ file_series (self wn) = rn
    ∧ listed_cwd w = Some cwd
    ∧ fs_listdir fs cwd = Some names
    ∧ store w1 !! r1
      = Some (filter (selected fnmatch cwd (file_wildcard ext w)) names)
    ∧ store wn !! rn = store w1 !! r1
    ∧ store wn !! r1 = store w1 !! r1.
Proof.
  rewrite get_file_series_run.
  destruct (listed_cwd w) as [cwd|] eqn:Hcwd; [|discriminate].
  destruct (fs_listdir fs cwd) as [names|] eqn:Hls; [|discriminate].
  destruct (scan fnmatch cwd (file_wildcard ext w) names) as [hits o] eqn:Hscan.
  simpl. destruct o as [[]|e]; [|discriminate]. intros [= <- <-].
  assert (hits = filter (selected fnmatch cwd (file_wildcard ext w)) names) as Hhits.
  { pose proof (scan_returned fnmatch cwd (file_wildcard ext w) names) as Hs.
    rewrite Hscan in Hs. by apply Hs. }
  set (w1 := MkWorld (set_file_series (length (store w)) (self w)) (parser w)
               (store w ++ [hits])).
  assert (store w1 !! length (store w) = Some hits) as Hr1
    by (by apply list_lookup_middle).
  destruct (again_run fnmatch fs ext cwd names hits n w1 (length (store w)))
    as (wn & rn & k & Hrun & Hst & Hrn & Hfn).
  - rewrite <- Hcwd. destruct w. by apply listed_cwd_frame.
  - exact Hls.
  - exact Hscan.
  - exact Hr1.
  - reflexivity.
  - exists wn, rn, cwd, names.
    split; [exact Hrun|]. split; [exact Hfn|]. split; [reflexivity|].
    split; [exact Hls|]. split; [by rewrite <- Hhits|].
    split; [by etrans; [exact Hrn|]|].
    rewrite Hst. etrans; [apply lookup_app_l_Some; exact Hr1 | done].
Qed.

Lemma get_file_series_idempotent_witness :
  ∃ wn rn,
    again (get_file_series Sample.fnmatch Sample.fs "bin") 3 1%nat
      (get_file_series Sample.fnmatch Sample.fs "bin" Sample.script).1
    = (wn, Returned rn)
    ∧ store wn !! rn = Some ["run0001.bin"; "run0002.bin"]
    ∧ store wn !! 1%nat = Some ["run0001.bin"; "run0002.bin"].
Proof.
  destruct (get_file_series_idempotent Sample.fnmatch Sample.fs "bin" Sample.script
              (get_file_series Sample.fnmatch Sample.fs "bin" Sample.script).1
              1%nat 3)
    as (wn & rn & cwd & names & Hrun & _ & _ & _ & _ & Hn & H1);
    [vm_compute; reflexivity|].
  exists wn, rn. split; [exact Hrun|].
  split; [etrans; [exact Hn|] | etrans; [exact H1|]]; vm_compute; reflexivity.
Defined.

(** * Further properties *)

(** ** [get_bin_info]: what a failed read leaves behind *)

Ltac case_step_in H :=
  match type of H with
  | context [match ?o with Some _ => _ | None => _ end] => destruct o eqn:?
  end.

Ltac use_equations :=
  repeat match goal with
         | H : ?x = Some _ |- context [?x] => rewrite H; cbn
         | H : ?x = None |- context [?x] => rewrite H; cbn
         end.

(** A read that fails is not undone.  When the info file is there but does
    not read under the layout, [get_bin_info] raises, and the parser keeps
    what was assigned before the failing line: [times] is replaced as soon as
    the date and the five time tokens are read, [bufheadlen] as soon as line
    33 is read as well; [eventheadlen] and [chanheadlen] keep their earlier
    values. *)
Theorem get_bin_info_partial_update strptime fs w content :
  fs_open fs (ifm_path w) = Some content →
  read_fields strptime (Py.readlines content) = None →
  ∃ w' e,
    get_bin_info strptime fs w = (w', Raised e)
    ∧ times (self w')
      = match read_times strptime (Py.readlines content) with
        | Some t => Some t
        | None => times (self w)
        end
    ∧ bufheadlen (self w')
      = match read_times strptime (Py.readlines content),
              token (Py.readlines content) 33 1 ≫= Py.int with
        | Some _, Some b => Some b
        | _, _ => bufheadlen (self w)
        end
    ∧ eventheadlen (self w') = eventheadlen (self w)
    ∧ chanheadlen (self w') = chanheadlen (self w).
Proof.
  unfold ifm_path. intros Hopen Hnone.
  set (T := match read_times _ _ with Some t => Some t | None => _ end).
  set (B := match read_times _ _ with Some _ => _ | None => _ end).
  unfold_run. rewrite Hopen.
  repeat case_step;
    try (eexists _, _; split; [reflexivity|]; subst T B;
         unfold read_times, date_text, token; cbn; use_equations;
         repeat split; reflexivity).
  exfalso. revert Hnone.
  unfold read_fields, date_text, token. cbn. use_lookups. discriminate.
Qed.

Lemma get_bin_info_partial_update_witness :
  ∃ w' e t,
    get_bin_info Sample.strptime (Sample.fs_with (text_of (String Py.LF "") (take 33 Sample.ifm_lines)))
      Sample.script = (w', Raised e)
    ∧ times (self w') = Some t ∧ total t = "302.514"
    ∧ bufheadlen (self w') = None.
Proof.
  destruct (get_bin_info_partial_update Sample.strptime
              (Sample.fs_with (text_of (String Py.LF "") (take 33 Sample.ifm_lines)))
              Sample.script (text_of (String Py.LF "") (take 33 Sample.ifm_lines)))
    as (w' & e & Hrun & Ht & Hb & _); [vm_compute; reflexivity ..|].
  exists w', e. eexists. split; [exact Hrun|].
  split; [etrans; [exact Ht|]; vm_compute; reflexivity|].
  split; [reflexivity|]. etrans; [exact Hb|]; vm_compute; reflexivity.
Defined.

(** ** [get_bin_info]: reading twice *)

(** Reading again changes nothing: a second [get_bin_info] on the world the
    first one left ends as the first did and leaves that world as it is. *)
Theorem get_bin_info_twice strptime fs w :
  get_bin_info strptime fs (get_bin_info strptime fs w).1
  = get_bin_info strptime fs w.
Proof.
  destruct (get_bin_info strptime fs w) as [w' o] eqn:Hrun. simpl.
  revert Hrun. unfold get_bin_info at 1. intros Hrun.
  cbv [active_file_path index collect seq Nat.add
       mbind M_bind mret M_ret or_raise raise get_self modify_self] in Hrun.
  repeat case_step_in Hrun; injection Hrun as <- <-;
    unfold_run;
    repeat match goal with
           | |- context [_get_active_file_path ?p] =>
               lazymatch p with
               | self w => fail
               | _ => change (_get_active_file_path p)
                        with (_get_active_file_path (self w))
               end
           end;
    use_equations; reflexivity.
Qed.

(** ** [get_file_series]: what every call does to the world *)

(** Whether it returns or raises, a call of [get_file_series] creates
    exactly one list object, binds [file_series] of the receiver to it, and
    changes nothing else: the list objects that existed, the selected file,
    the counters, the metadata and the name [parser] are as before. *)
Theorem get_file_series_allocates fnmatch fs ext w :
  let w' := (get_file_series fnmatch fs ext w).1 in
  file_series (self w') = length (store w)
  ∧ (∃ items, store w' = store w ++ [items])
  ∧ selected_data_file (self w') = selected_data_file (self w)
  ∧ file_counter (self w') = file_counter (self w)
  ∧ buffer_no (self w') = buffer_no (self w)
  ∧ metadata (self w') = metadata (self w)
  ∧ parser w' = parser w.
Proof.
  rewrite get_file_series_run. cbv zeta.
  destruct (listed_cwd w) as [cwd|]; [destruct (fs_listdir fs cwd) as [names|]|];
    simpl; repeat split; eauto.
Qed.

(** In a program that imports the module, so that the name [parser] is not
    bound, every call of [get_file_series] raises [NameError], and it has
    already replaced the file series by an empty list. *)
Theorem get_file_series_unbound fnmatch fs ext w :
  parser w = Unbound →
  ∃ w',
    get_file_series fnmatch fs ext w = (w', Raised NameError)
    ∧ store w' !! file_series (self w') = Some [].
Proof.
  intros Hp. rewrite get_file_series_run. unfold listed_cwd. rewrite Hp.
  eexists. split; [reflexivity|]. simpl. by apply list_lookup_middle.
Qed.

Lemma get_file_series_unbound_witness :
  ∃ w',
    get_file_series Sample.fnmatch Sample.fs "bin" Sample.imported
    = (w', Raised NameError)
    ∧ store w' !! file_series (self w') = Some [].
Proof.
  exact (get_file_series_unbound Sample.fnmatch Sample.fs "bin" Sample.imported
           eq_refl).
Defined.

(** When the directory of the series cannot be listed, the call raises
    [OSError], again with the file series already replaced by an empty
    list. *)
Theorem get_file_series_no_directory fnmatch fs ext w cwd :
  listed_cwd w = Some cwd →
  fs_listdir fs cwd = None →
  ∃ w',
    get_file_series fnmatch fs ext w = (w', Raised OSError)
    ∧ store w' !! file_series (self w') = Some [].
Proof.
  intros Hcwd Hls. rewrite get_file_series_run, Hcwd, Hls.
  eexists. split; [reflexivity|]. simpl. by apply list_lookup_middle.
Qed.

Lemma get_file_series_no_directory_witness :
  ∃ w',
    get_file_series Sample.fnmatch Sample.fs_empty "bin" Sample.script
    = (w', Raised OSError)
    ∧ store w' !! file_series (self w') = Some [].
Proof.
  apply (get_file_series_no_directory Sample.fnmatch Sample.fs_empty "bin"
           Sample.script "/data"); vm_compute; reflexivity.
Defined.

(** ** [series_basename] on any path *)

(** [series_basename] cuts the last 8 characters off the selected path,
    whatever they are; a path of 8 characters or fewer, such as the initial
    empty one, has the empty base name. *)
Theorem series_basename_cut p :
  ∃ suffix,
    selected_data_file p = _get_series_basename p +:+ suffix
    ∧ String.length suffix = Nat.min 8 (String.length (selected_data_file p)).
Proof.
  unfold _get_series_basename. set (s := selected_data_file p).
  exists (Py.of_chars (drop (String.length s - 8) (Py.chars s))).
  unfold Py.slice, Py.adjust, Py.len.
  change (-8 <? 0) with true. cbv iota.
  rewrite Z2Nat.inj_0, drop_0.
  replace (Z.to_nat (Z.max (-8 + Z.of_nat (String.length s)) 0 - 0))
    with (String.length s - 8)%nat by lia.
  split.
  - rewrite <- (of_chars_chars (_ +:+ _)), chars_app, !chars_of_chars.
    by rewrite take_drop, of_chars_chars.
  - rewrite <- chars_length, chars_of_chars, length_drop, chars_length. lia.
Qed.

Lemma series_basename_short p :
  (String.length (selected_data_file p) ≤ 8)%nat → _get_series_basename p = "".
Proof.
  intros Hlen. destruct (series_basename_cut p) as (suffix & Hsel & Hsuf).
  apply (f_equal String.length) in Hsel. rewrite string_app_length in Hsel.
  destruct (_get_series_basename p); [reflexivity | simpl in Hsel; lia].
Qed.

(** ** [active_file_path] and the file counter *)

Lemma digit_value_digit_char k : 0 ≤ k ≤ 9 → Py.digit_value (digit_char k) = Some k.
Proof.
  intros Hk.
  assert (k = 0 ∨ k = 1 ∨ k = 2 ∨ k = 3 ∨ k = 4 ∨ k = 5 ∨ k = 6 ∨ k = 7
          ∨ k = 8 ∨ k = 9) as Hcases by lia.
  repeat (destruct Hcases as [->|Hcases]; [reflexivity|]). by subst k.
Qed.

Lemma four_digits_value n :
  0 ≤ n ≤ 9999 → Py.unsigned_value (four_digits n) = Some n.
Proof.
  intros Hn. unfold four_digits, Py.unsigned_value.
  cbn [Py.digits_value].
  rewrite (digit_value_digit_char (n / 1000)) by (Z.div_mod_to_equations; lia).
  rewrite (digit_value_digit_char (n / 100 mod 10)) by (Z.div_mod_to_equations; lia).
  rewrite (digit_value_digit_char (n / 10 mod 10)) by (Z.div_mod_to_equations; lia).
  rewrite (digit_value_digit_char (n mod 10)) by (Z.div_mod_to_equations; lia).
  f_equal. Z.div_mod_to_equations. lia.
Qed.

(** A text that starts with a digit carries no sign. *)
Lemma int_unsigned c x s :
  Py.digit_value c = Some x → Py.int (String c s) = Py.unsigned_value (String c s).
Proof.
  intros Hc%digit_value_char. simpl in Hc.
  repeat (destruct Hc as [<-|Hc]; [reflexivity|]). done.
Qed.

Lemma counter_text n :
  0 ≤ n ≤ 9999 →
  String.length (Py.format_0gt4 n) = 4%nat ∧ Py.int (Py.format_0gt4 n) = Some n.
Proof.
  intros Hn. pose proof (four_digits_value n Hn) as Hval.
  destruct (four_digits_format (four_digits n) n eq_refl Hval) as [-> _].
  split; [reflexivity|].
  unfold four_digits at 1.
  rewrite (int_unsigned _ (n / 1000)); [exact Hval|].
  apply digit_value_digit_char. Z.div_mod_to_equations. lia.
Qed.

Lemma string_app_inj base a b : base +:+ a = base +:+ b → a = b.
Proof. induction base as [|c base IH]; simpl; [done|]. intros [= H]. by apply IH. Qed.

(** For a counter from 0 to 9999 the active file path is the base name
    followed by exactly four characters, which read back as the counter; so
    two such counters name the same file only when they are equal. *)
Theorem active_file_path_counter p n m :
  0 ≤ n ≤ 9999 → 0 ≤ m ≤ 9999 →
  (∃ digits,
     _get_active_file_path (set_file_counter n p) = _get_series_basename p +:+ digits
     ∧ String.length digits = 4%nat ∧ Py.int digits = Some n)
  ∧ (_get_active_file_path (set_file_counter n p)
     = _get_active_file_path (set_file_counter m p) → n = m).
Proof.
  intros Hn Hm. destruct (counter_text n Hn) as [Hlen Hint].
  destruct (counter_text m Hm) as [_ Hint'].
  split.
  - exists (Py.format_0gt4 n). by repeat split.
  - unfold _get_active_file_path. simpl file_counter.
    change (_get_series_basename (set_file_counter n p)) with (_get_series_basename p).
    change (_get_series_basename (set_file_counter m p)) with (_get_series_basename p).
    intros Heq%string_app_inj. rewrite Heq in Hint. congruence.
Qed.

Lemma active_file_path_counter_witness :
  _get_active_file_path (set_file_counter 37 (self Sample.script)) = "/data/run0037"
  ∧ (_get_active_file_path (set_file_counter 37 (self Sample.script))
     = _get_active_file_path (set_file_counter 38 (self Sample.script)) → 37 = 38).
Proof.
  destruct (active_file_path_counter (self Sample.script) 37 38) as [_ Hinj];
    [lia | lia |].
  split; [vm_compute; reflexivity | exact Hinj].
Defined.

(** ** The view's handler *)

Lemma for_each_pass {A} (items : list A) w :
  for_each items (λ _, mret tt) w = (w, Returned tt).
Proof. induction items as [|x items IH]; [reflexivity | exact IH]. Qed.

(** The world in which the handler of the view runs [get_file_series]. *)
Lemma bin_filename_changed_run fnmatch fs new v w :
  _bin_filename_changed fnmatch fs new v w
  = let w0 := MkWorld (set_selected_data_file new (self w)) (parser w) (store w) in
    match get_file_series fnmatch fs "bin" w0 with
    | (w1, Raised e) => (w1, Raised e)
    | (w1, Returned r) =>
        let own := length (store w1) in
        let w2 := MkWorld (self w1) (parser w1)
                    (store w1 ++ [default [] (store w1 !! r)]) in
        match get_file_series fnmatch fs "ifm" w2 with
        | (w3, Raised e) => (w3, Raised e)
        | (w3, Returned r') =>
            (w3, Returned (MkView (bin_filename v) (hdf_filename v) own))
        end
    end.
Proof.
  cbv [_bin_filename_changed mbind M_bind modify_self list_items new_list
       mret M_ret].
  destruct (get_file_series fnmatch fs "bin" _) as [w1 [r|e]]; [|reflexivity].
  destruct (get_file_series fnmatch fs "ifm" _) as [w3 [r'|e]]; [|reflexivity].
  change (for_each ?l _ w3) with (for_each l (λ _ : string, mret tt) w3).
  by rewrite for_each_pass.
Qed.

(** After a change of the selected file that the handler of the view
    survives, the view shows the entries of the directory that match
    '<base>*.bin', in a list object of its own, while the file series that
    the parser holds is the list of the entries that match '<base>*.ifm':
    the second call of [get_file_series] has replaced the first list. *)
Theorem bin_filename_changed_series fnmatch fs new v w v' w' :
  _bin_filename_changed fnmatch fs new v w = (w', Returned v') →
  ∃ cwd names,
    listed_cwd (MkWorld (set_selected_data_file new (self w)) (parser w) (store w))
      = Some cwd
    ∧ fs_listdir fs cwd = Some names
    ∧ selected_data_file (self w') = new
    ∧ store w' !! view_file_series v'
      = Some (filter (selected fnmatch cwd
                        (Py.slice new None (Some (-8)) +:+ "*.bin")) names)
    ∧ store w' !! file_series (self w')
      = Some (filter (selected fnmatch cwd
                        (Py.slice new None (Some (-8)) +:+ "*.ifm")) names)
    ∧ view_file_series v' ≠ file_series (self w')
    ∧ bin_filename v' = bin_filename v.
Proof.
  rewrite bin_filename_changed_run. cbv zeta.
  set (w0 := MkWorld (set_selected_data_file new (self w)) (parser w) (store w)).
  rewrite (get_file_series_run fnmatch fs "bin" w0). cbv zeta.
  destruct (listed_cwd w0) as [cwd|] eqn:Hcwd; [|discriminate].
  destruct (fs_listdir fs cwd) as [names|] eqn:Hls; [|discriminate].
  pose proof (scan_returned fnmatch cwd (file_wildcard "bin" w0) names) as Hbin.
  destruct (scan fnmatch cwd (file_wildcard "bin" w0) names) as [bins [[]|e]];
    [|discriminate].
  simpl returned_ref. cbv beta iota.
  simpl in Hbin. specialize (Hbin eq_refl). subst bins.
  set (bins := filter _ names).
  rewrite get_file_series_run. cbv zeta.
  match goal with
  | |- context [listed_cwd ?w2] =>
      lazymatch w2 with
      | w0 => fail
      | _ => replace (listed_cwd w2) with (listed_cwd w0)
               by (symmetry; by apply listed_cwd_frame)
      end
  end.
  rewrite Hcwd, Hls.
  match goal with
  | |- context [scan fnmatch cwd ?wc names] =>
      pose proof (scan_returned fnmatch cwd wc names) as Hifm;
      destruct (scan fnmatch cwd wc names) as [ifms [[]|e]]; [|discriminate]
  end.
  simpl in Hifm. specialize (Hifm eq_refl). subst ifms.
  cbn [store self parser fst snd]. unfold ref.
  rewrite (list_lookup_middle (store w0) [] bins (length (store w)) eq_refl).
  intros [= <- <-]. exists cwd, names.
  cbn [store self parser view_file_series bin_filename default from_option].
  split; [done|]. split; [done|]. split; [reflexivity|].
  split; [|split; [|split; [|reflexivity]]].
  - rewrite lookup_app_l by (rewrite !length_app; simpl; lia).
    apply list_lookup_middle. rewrite length_app. simpl. lia.
  - by apply list_lookup_middle.
  - simpl. rewrite !length_app. simpl. lia.
Qed.

Lemma bin_filename_changed_series_witness :
  ∃ w' v',
    _bin_filename_changed Sample.fnmatch Sample.fs "/data/run0001.bin"
      (MkView "/data/run0001.bin" "" 0%nat)
      (MkWorld new_parser BoundToSelf [[]])
    = (w', Returned v')
    ∧ store w' !! view_file_series v' = Some ["run0001.bin"; "run0002.bin"]
    ∧ store w' !! file_series (self w') = Some ["run0001.ifm"].
Proof.
  eexists _, _. split; [vm_compute; reflexivity|].
  edestruct (bin_filename_changed_series Sample.fnmatch Sample.fs "/data/run0001.bin"
               (MkView "/data/run0001.bin" "" 0%nat)
               (MkWorld new_parser BoundToSelf [[]]))
    as (cwd & names & _); [vm_compute; reflexivity|].
  split; vm_compute; reflexivity.
Defined.

(** ** Line ends of the info file *)

Lemma plain_cons c line :
  plain (String c line) = true → c ≠ Py.CR ∧ c ≠ Py.LF ∧ plain line = true.
Proof.
  unfold plain. simpl. rewrite !andb_true_iff, !negb_true_iff.
  intros [[Hcr Hlf] Hrest]. apply Ascii.eqb_neq in Hcr, Hlf. done.
Qed.

Lemma universal_newlines_cons c s :
  c ≠ Py.CR → Py.universal_newlines (String c s) = String c (Py.universal_newlines s).
Proof. intros Hc%Ascii.eqb_neq. simpl. by rewrite Hc. Qed.

Lemma universal_newlines_plain line rest :
  plain line = true →
  Py.universal_newlines (line +:+ rest) = line +:+ Py.universal_newlines rest.
Proof.
  induction line as [|c line IH]; [done|].
  intros (Hcr & _ & Hline)%plain_cons.
  change (String c line +:+ rest) with (String c (line +:+ rest)).
  rewrite universal_newlines_cons by done. rewrite IH by done. reflexivity.
Qed.

(** A text of plain lines does not start with a line feed, unless the first
    line is empty and the line end is one. *)
Lemma text_of_first eol lines :
  eol = String Py.CR "" ∨ eol = String Py.CR (String Py.LF "") →
  forallb plain lines = true →
  match text_of eol lines with
  | String c _ => c ≠ Py.LF
  | EmptyString => True
  end.
Proof.
  intros Heol Hplain. destruct lines as [|line lines]; [done|].
  simpl in Hplain. apply andb_true_iff in Hplain as [Hline _].
  simpl. destruct line as [|c line].
  - destruct Heol as [-> | ->]; done.
  - apply plain_cons in Hline as (_ & Hlf & _). exact Hlf.
Qed.

Lemma universal_newlines_text eol lines :
  eol ∈ line_ends → forallb plain lines = true →
  Py.universal_newlines (text_of eol lines) = text_of (String Py.LF "") lines.
Proof.
  intros Heol. induction lines as [|line lines IH]; [done|].
  intros Hall. pose proof Hall as Hall'. simpl in Hall'.
  apply andb_true_iff in Hall' as [Hline Hrest].
  specialize (IH Hrest). simpl text_of.
  rewrite universal_newlines_plain by done. f_equal.
  unfold line_ends in Heol.
  apply elem_of_cons in Heol as [-> | Heol];
    [|apply elem_of_cons in Heol as [-> | Heol];
      [|apply elem_of_cons in Heol as [-> | Heol]; [|by apply elem_of_nil in Heol]]].
  - change (String Py.LF "" +:+ ?r) with (String Py.LF r).
    rewrite universal_newlines_cons by done. by rewrite IH.
  - change (String Py.CR "" +:+ ?r) with (String Py.CR r).
    pose proof (text_of_first (String Py.CR "") lines (or_introl eq_refl) Hrest) as Hfirst.
    change (String Py.LF "" +:+ ?r) with (String Py.LF r).
    rewrite <- IH. simpl.
    destruct (text_of (String Py.CR "") lines) as [|c rest]; [done|].
    apply Ascii.eqb_neq in Hfirst. by rewrite Hfirst.
  - change (String Py.CR (String Py.LF "") +:+ ?r) with (String Py.CR (String Py.LF r)).
    change (String Py.LF "" +:+ ?r) with (String Py.LF r).
    rewrite <- IH. reflexivity.
Qed.

Lemma lines_from_plain line rest cur :
  plain line = true →
  Py.lines_from (line +:+ String Py.LF rest) cur
  = (cur +:+ line +:+ String Py.LF "") :: Py.lines_from rest "".
Proof.
  revert cur. induction line as [|c line IH]; intros cur Hline.
  - reflexivity.
  - apply plain_cons in Hline as (_ & Hlf%Ascii.eqb_neq & Hline).
    change (String c line +:+ ?r) with (String c (line +:+ r)).
    simpl Py.lines_from. rewrite Hlf, IH by done.
    by rewrite string_app_assoc.
Qed.

Lemma lines_from_text lines :
  forallb plain lines = true →
  Py.lines_from (text_of (String Py.LF "") lines) ""
  = (λ line, line +:+ String Py.LF "") <$> lines.
Proof.
  induction lines as [|line lines IH]; [done|].
  simpl. intros [Hline Hrest]%andb_true_iff.
  change (String Py.LF "" +:+ ?r) with (String Py.LF r).
  rewrite lines_from_plain by done. by rewrite IH.
Qed.

(** What [readlines] gives does not depend on the line ends of the file:
    with "\n", "\r" or "\r\n" after every line, the lines read are the
    lines of the text, each followed by "\n". *)
Lemma readlines_text eol lines :
  eol ∈ line_ends → forallb plain lines = true →
  Py.readlines (text_of eol lines) = (λ line, line +:+ String Py.LF "") <$> lines.
Proof.
  intros Heol Hplain. unfold Py.readlines.
  rewrite universal_newlines_text by done. by apply lines_from_text.
Qed.

Lemma get_bin_info_same_lines strptime fs1 fs2 w content1 content2 :
  fs_open fs1 (ifm_path w) = Some content1 →
  fs_open fs2 (ifm_path w) = Some content2 →
  Py.readlines content1 = Py.readlines content2 →
  get_bin_info strptime fs1 w = get_bin_info strptime fs2 w.
Proof.
  unfold ifm_path. intros Hopen1 Hopen2 Heq.
  unfold_run. by rewrite Hopen1, Hopen2, Heq.
Qed.

(** [get_bin_info] reads an info file the same way whether its lines end in
    "\n", in "\r" or in "\r\n": the file is opened with mode 'rU'. *)
Theorem get_bin_info_line_ends strptime fs1 fs2 w lines eol1 eol2 :
  eol1 ∈ line_ends → eol2 ∈ line_ends →
  forallb plain lines = true →
  fs_open fs1 (ifm_path w) = Some (text_of eol1 lines) →
  fs_open fs2 (ifm_path w) = Some (text_of eol2 lines) →
  get_bin_info strptime fs1 w = get_bin_info strptime fs2 w.
Proof.
  intros Heol1 Heol2 Hplain Hopen1 Hopen2.
  apply (get_bin_info_same_lines _ _ _ _ _ _ Hopen1 Hopen2).
  by rewrite !readlines_text.
Qed.

Lemma get_bin_info_line_ends_witness :
  get_bin_info Sample.strptime
    (Sample.fs_with (text_of (String Py.CR "") Sample.ifm_lines)) Sample.script
  = get_bin_info Sample.strptime
      (Sample.fs_with (text_of (String Py.CR (String Py.LF "")) Sample.ifm_lines))
      Sample.script.
Proof.
  apply (get_bin_info_line_ends Sample.strptime _ _ Sample.script Sample.ifm_lines
           (String Py.CR "") (String Py.CR (String Py.LF "")));
    [ unfold line_ends; rewrite !elem_of_cons; auto
    | unfold line_ends; rewrite !elem_of_cons; auto
    | vm_compute; reflexivity | vm_compute; reflexivity | vm_compute; reflexivity ].
Defined.

(** ** The directory that is listed *)









(** In a program that imports the module, the handler of the view cannot
    succeed: it raises [NameError] from its first [get_file_series], when
    it has already stored the new file name in the parser and emptied the
    file series of the parser. *)
Theorem bin_filename_changed_unbound fnmatch fs new v w :
  parser w = Unbound →
  ∃ w',
    _bin_filename_changed fnmatch fs new v w = (w', Raised NameError)
    ∧ selected_data_file (self w') = new
    ∧ store w' !! file_series (self w') = Some [].
Proof.
  intros Hp. rewrite bin_filename_changed_run. cbv zeta.
  rewrite get_file_series_run. unfold listed_cwd. simpl parser. rewrite Hp.
  eexists. split; [reflexivity|]. split; [reflexivity|].
  simpl. by apply list_lookup_middle.
Qed.

Lemma bin_filename_changed_unbound_witness :
  ∃ w',
    _bin_filename_changed Sample.fnmatch Sample.fs "/data/run0001.bin"
      (MkView "/data/run0001.bin" "" 0%nat) (MkWorld new_parser Unbound [[]])
    = (w', Raised NameError)
    ∧ selected_data_file (self w') = "/data/run0001.bin"
    ∧ store w' !! file_series (self w') = Some [].
Proof.
  exact (bin_filename_changed_unbound Sample.fnmatch Sample.fs "/data/run0001.bin"
           (MkView "/data/run0001.bin" "" 0%nat) (MkWorld new_parser Unbound [[]])
           eq_refl).
Defined.
